(** * ThunkLibs host runtime header and thunk generator tests

    A shallow embedding of [ThunkLibs/include/common/Host.h] and of the
    expectations recorded in [unittests/ThunkLibs/generator.cpp].

    The header is template code: most of what it does happens when a
    template is instantiated.  Instantiation is modelled as a function
    into [Instantiation], whose failure case carries the diagnostic
    (a failed [static_assert], an incomplete type, ...).  Run-time values
    are bit patterns, written as [Z] together with the width of their
    type; host code that calls out runs in [Runtime.Outcome], which keeps
    the trace of the calls made and the fault of a crash.

    - [Cxx]: types, type traits, integer conversions, instantiation.
    - [Layout]: [guest_layout], [host_layout], [to_guest].
    - [Runtime], [Callback]: [GuestcallInfo], [CallbackUnpack],
      [GuestWrapperForHostFunction], the trampoline helpers.
    - [Exports]: [ExportEntry].
    - [Generator]: the thunk generator, which the sources do not
      contain, as the specification describes it.
    - [Tests]: test cases of generator.cpp and their inputs.
    - [Conversion]: [Projection], [to_host_layout] and the whole of
      [GuestWrapperForHostFunction::Call].
    - [Harness]: the AST match callback and the text handling of the
      test fixture in generator.cpp. *)

From Stdlib Require Import ZArith List String Ascii Bool Lia.
Set Warnings "-register-all".
Import ListNotations.

(** ** C++ types and type traits *)

Module Cxx.

Inductive Signedness := Signed | Unsigned.

Inductive IntRank := Char | Short | Int | Long | LongLong.

Record IntType := { signedness : Signedness; rank : IntRank }.

Inductive FloatKind := Float | Double | LongDouble.

(** The types the header distinguishes through its type traits.
    [ConstPointer T] is [T* const], which has a partial specialisation of
    its own in the header. *)
Inductive CType :=
| Void
| Boolean
| Integer (t : IntType)
| Floating (k : FloatKind)
| Enum (name : string) (underlying : IntType)
| Class (name : string)
| Union (name : string)
| Pointer (pointee : CType)
| ConstPointer (pointee : CType)
| Function (result : CType) (params : list CType).

(** <cstdint> on the LP64 hosts the header is compiled for. *)
Definition uint8_t : IntType := {| signedness := Unsigned; rank := Char |}.
Definition uint32_t : IntType := {| signedness := Unsigned; rank := Int |}.
Definition uint64_t : IntType := {| signedness := Unsigned; rank := Long |}.
Definition uintptr_t : IntType := {| signedness := Unsigned; rank := Long |}.
Definition int_t : IntType := {| signedness := Signed; rank := Int |}.
Definition char_t : IntType := {| signedness := Signed; rank := Char |}.
Definition long_t : IntType := {| signedness := Signed; rank := Long |}.
Definition unsigned_long : IntType := {| signedness := Unsigned; rank := Long |}.

Definition is_class_v (T : CType) : bool :=
  match T with Class _ => true | _ => false end.

Definition is_union_v (T : CType) : bool :=
  match T with Union _ => true | _ => false end.

Definition is_enum_v (T : CType) : bool :=
  match T with Enum _ _ => true | _ => false end.

Definition is_void_v (T : CType) : bool :=
  match T with Void => true | _ => false end.

Definition is_pointer_v (T : CType) : bool :=
  match T with Pointer _ | ConstPointer _ => true | _ => false end.

Definition is_function_v (T : CType) : bool :=
  match T with Function _ _ => true | _ => false end.

(** Arithmetic and enumeration types: the scalar types that are not
    pointers. *)
Definition is_scalar_non_pointer (T : CType) : bool :=
  match T with
  | Boolean | Integer _ | Floating _ | Enum _ _ => true
  | _ => false
  end.

Definition rank_bits (r : IntRank) : Z :=
  match r with
  | Char => 8 | Short => 16 | Int => 32 | Long => 64 | LongLong => 64
  end%Z.

Definition int_bits (t : IntType) : Z := rank_bits (rank t).

Definition float_bits (k : FloatKind) : Z :=
  match k with Float => 32 | Double => 64 | LongDouble => 128 end%Z.

(** [sizeof] in bytes, as the host compiler computes it.  Incomplete and
    function types have no size; class and union sizes depend on
    definitions that live outside the header and are not needed by it. *)
Definition sizeof (T : CType) : option Z :=
  match T with
  | Boolean => Some 1
  | Integer t => Some (int_bits t / 8)
  | Floating k => Some (float_bits k / 8)
  | Enum _ u => Some (int_bits u / 8)
  | Pointer _ | ConstPointer _ => Some 8
  | Void | Class _ | Union _ | Function _ _ => None
  end%Z.

Definition Signedness_eqb (a b : Signedness) : bool :=
  match a, b with
  | Signed, Signed | Unsigned, Unsigned => true
  | _, _ => false
  end.

Definition IntRank_eqb (a b : IntRank) : bool :=
  match a, b with
  | Char, Char | Short, Short | Int, Int | Long, Long
  | LongLong, LongLong => true
  | _, _ => false
  end.

Definition IntType_eqb (a b : IntType) : bool :=
  Signedness_eqb (signedness a) (signedness b)
  && IntRank_eqb (rank a) (rank b).

Definition FloatKind_eqb (a b : FloatKind) : bool :=
  match a, b with
  | Float, Float | Double, Double | LongDouble, LongDouble => true
  | _, _ => false
  end.

Fixpoint CType_eqb (a b : CType) {struct a} : bool :=
  match a, b with
  | Void, Void => true
  | Boolean, Boolean => true
  | Integer s, Integer t => IntType_eqb s t
  | Floating j, Floating k => FloatKind_eqb j k
  | Enum n u, Enum m v => String.eqb n m && IntType_eqb u v
  | Class n, Class m => String.eqb n m
  | Union n, Union m => String.eqb n m
  | Pointer p, Pointer q => CType_eqb p q
  | ConstPointer p, ConstPointer q => CType_eqb p q
  | Function r ps, Function s qs =>
      CType_eqb r s
      && (fix params_eqb (xs ys : list CType) {struct xs} : bool :=
            match xs, ys with
            | [], [] => true
            | x :: xs', y :: ys' => CType_eqb x y && params_eqb xs' ys'
            | _, _ => false
            end) ps qs
  | _, _ => false
  end.

(** *** Integer conversions on bit patterns *)

(** A value of a [w]-bit integer type is stored as its bit pattern, a
    number in [[0, 2^w)]. *)
Definition in_range (w v : Z) : Prop := (0 <= v < 2 ^ w)%Z.

(** The number a bit pattern stands for. *)
Definition value_of (s : Signedness) (w v : Z) : Z :=
  match s with
  | Unsigned => v
  | Signed => if (v <? 2 ^ (w - 1))%Z then v else (v - 2 ^ w)%Z
  end.

(** Conversion to a [w]-bit integer type is reduction modulo [2^w]. *)
Definition wrap (w v : Z) : Z := (v mod 2 ^ w)%Z.

Definition convert_int (src : IntType) (dst_bits : Z) (v : Z) : Z :=
  wrap dst_bits (value_of (signedness src) (int_bits src) v).

(** A conversion between integer types is narrowing unless the target
    can represent every value of the source. *)
Definition represents_all (src dst : IntType) : bool :=
  match signedness src, signedness dst with
  | Unsigned, Unsigned | Signed, Signed => (int_bits src <=? int_bits dst)%Z
  | Unsigned, Signed => (int_bits src <? int_bits dst)%Z
  | Signed, Unsigned => false
  end.

(** *** Template instantiation *)

Inductive Diagnostic :=
| static_assert_failed (message : string)
| incomplete_type
| field_of_function_type
| constraints_not_satisfied
| narrowing_conversion
| no_viable_conversion
| deleted_function
| undeclared_identifier (name : string).

Inductive Instantiation (A : Type) :=
| WellFormed (a : A)
| IllFormed (d : Diagnostic).

Arguments WellFormed {A} a.
Arguments IllFormed {A} d.

Definition bind {A B} (i : Instantiation A) (k : A -> Instantiation B)
  : Instantiation B :=
  match i with
  | WellFormed a => k a
  | IllFormed d => IllFormed d
  end.

Definition static_assert (cond : bool) (message : string)
  : Instantiation unit :=
  if cond then WellFormed tt else IllFormed (static_assert_failed message).

Definition compiles {A} (i : Instantiation A) : bool :=
  match i with WellFormed _ => true | IllFormed _ => false end.

End Cxx.

Declare Scope inst_scope.
Delimit Scope inst_scope with inst.
Notation "x <- e ;; k" := (Cxx.bind e (fun x => k))
  (at level 61, e at next level, right associativity) : inst_scope.
Notation "e ;;; k" := (Cxx.bind e (fun _ => k))
  (at level 61, right associativity) : inst_scope.

(** ** Layout wrappers: guest_layout<T>, host_layout<T>, to_guest *)

Module Layout.
Import Cxx.
Local Open Scope inst_scope.

(** How the [data] member of a [guest_layout<T>] is declared: with the
    type [T] itself (the primary template), with a fixed-width integer
    (the pointer specialisations; generated enum wrappers), or as a
    struct of [guest_layout] members (generated repacking wrappers). *)
Inductive GuestDataType :=
| HostType
| FixedInt (t : IntType)
| Members (ms : list (string * CType)).

(** Both wrappers are structs whose only member is [data]. *)
Record GuestLayoutDef := { guest_data : GuestDataType }.

Record HostLayoutDef := { host_data : CType }.

(** An object of either wrapper: the bits of its member [data]. *)
Record Object := { data : Z }.

(** Explicit specialisations and overloads that a generated host module
    places next to the header, keyed by the name of the class, union or
    enum type they are for. *)
Inductive Specialization (Def : Type) :=
| DeclaredOnly
| Defined (d : Def).

Arguments DeclaredOnly {Def}.
Arguments Defined {Def} d.

Inductive Overload := Deleted | Provided.

Record Generated := {
  guest_layout_spec : string -> option (Specialization GuestLayoutDef);
  host_layout_spec : string -> option (Specialization HostLayoutDef);
  to_guest_overload : string -> option Overload
}.

(** A translation unit that contains the header alone. *)
Definition header_only : Generated :=
  {| guest_layout_spec := fun _ => None;
     host_layout_spec := fun _ => None;
     to_guest_overload := fun _ => None |}.

Definition tag_name (T : CType) : option string :=
  match T with
  | Class n | Union n | Enum n _ => Some n
  | _ => None
  end.

Definition underlying_type_t (T : CType) : option IntType :=
  match T with Enum _ u => Some u | _ => None end.

Definition use {Def} (s : Specialization Def) : Instantiation Def :=
  match s with
  | DeclaredOnly => IllFormed incomplete_type
  | Defined d => WellFormed d
  end.

(** template<typename T> struct guest_layout *)
Definition guest_layout_primary (T : CType) : Instantiation GuestLayoutDef :=
  static_assert (negb (is_class_v T))
    "No guest layout defined for this non-opaque struct type. This may be a bug in the thunk generator." ;;;
  static_assert (negb (is_union_v T))
    "No guest layout defined for this non-opaque union type. This may be a bug in the thunk generator." ;;;
  static_assert (negb (is_enum_v T))
    "No guest layout defined for this enum type. This is a bug in the thunk generator." ;;;
  static_assert (negb (is_void_v T))
    "Attempted to get guest layout of void. Missing annotation for void pointer?" ;;;
  (* using type = std::enable_if_t<!std::is_pointer_v<T>, T>; type data; *)
  (if is_pointer_v T then IllFormed constraints_not_satisfied
   else if is_function_v T then IllFormed field_of_function_type
   else WellFormed {| guest_data := HostType |}).

(** template<typename T> struct host_layout *)
Definition host_layout_primary (T : CType) : Instantiation HostLayoutDef :=
  static_assert (negb (is_class_v T))
    "No host_layout specialization generated for struct/class type" ;;;
  static_assert (negb (is_union_v T))
    "No host_layout specialization generated for union type" ;;;
  static_assert (negb (is_void_v T))
    "Attempted to get host layout of void. Missing annotation for void pointer?" ;;;
  (* T data; *)
  (if is_function_v T then IllFormed field_of_function_type
   else WellFormed {| host_data := T |}).

(** template<typename T> struct host_layout<T*> *)
Definition host_layout_ptr (T : CType) : Instantiation HostLayoutDef :=
  static_assert (negb (is_function_v T))
    "Function types must be handled separately" ;;;
  WellFormed {| host_data := Pointer T |}.

(** template<typename T> struct host_layout<T* const> *)
Definition host_layout_const_ptr (T : CType) : Instantiation HostLayoutDef :=
  static_assert (negb (is_function_v T))
    "Function types must be handled separately" ;;;
  WellFormed {| host_data := Pointer T |}.

Section Build.

(** Whether the header is compiled with IS_32BIT_THUNK defined. *)
Variable IS_32BIT_THUNK : bool.

(** #ifdef IS_32BIT_THUNK  using type = uint32_t;  #else  uint64_t *)
Definition guest_pointer_type : IntType :=
  if IS_32BIT_THUNK then uint32_t else uint64_t.

Definition guest_pointer_bits : Z := int_bits guest_pointer_type.

(** template<typename T> struct guest_layout<T*> *)
Definition guest_layout_ptr (T : CType) : GuestLayoutDef :=
  {| guest_data := FixedInt guest_pointer_type |}.

(** template<typename T> struct guest_layout<T* const> *)
Definition guest_layout_const_ptr (T : CType) : GuestLayoutDef :=
  {| guest_data := FixedInt guest_pointer_type |}.

Variable gen : Generated.

(** The specialisation the compiler selects for [guest_layout<T>]: a
    generated explicit specialisation, a pointer specialisation of the
    header, or the primary template. *)
Definition guest_layout (T : CType) : Instantiation GuestLayoutDef :=
  match T with
  | Pointer U => WellFormed (guest_layout_ptr U)
  | ConstPointer U => WellFormed (guest_layout_const_ptr U)
  | _ =>
      match option_map (guest_layout_spec gen) (tag_name T) with
      | Some (Some s) => use s
      | _ => guest_layout_primary T
      end
  end.

Definition host_layout (T : CType) : Instantiation HostLayoutDef :=
  match T with
  | Pointer U => host_layout_ptr U
  | ConstPointer U => host_layout_const_ptr U
  | _ =>
      match option_map (host_layout_spec gen) (tag_name T) with
      | Some (Some s) => use s
      | _ => host_layout_primary T
      end
  end.

(** *** guest_layout<T*>, guest_layout<T* const>: member functions *)

(** guest_layout& operator=(const T* from) requires (std::is_function_v<T>)
    { data = reinterpret_cast<uintptr_t>(from); }
    The same text appears in both pointer specialisations. *)
Definition guest_layout_ptr_assign (T : CType) (self : Object) (from : Z)
  : Instantiation Object :=
  if is_function_v T
  then WellFormed {| data := convert_int uintptr_t guest_pointer_bits from |}
  else IllFormed constraints_not_satisfied.

(** get_pointer(): reinterpret_cast<guest_layout<T>*>(uintptr_t { data }) *)
Definition get_pointer (self : Object) : Z :=
  convert_int guest_pointer_type (int_bits uintptr_t) (data self).

(** *** host_layout<T*>, host_layout<T* const>: constructors *)

(** explicit host_layout(const guest_layout<T*>& from)
      : data { (uintptr_t)from.data, cast to a pointer to T } *)
Definition host_layout_ptr_ctor (T : CType) (from : Object)
  : Instantiation Object :=
  host_layout_ptr T ;;;
  WellFormed
    {| data := convert_int guest_pointer_type (int_bits uintptr_t) (data from) |}.

Definition host_layout_const_ptr_ctor (T : CType) (from : Object)
  : Instantiation Object :=
  host_layout_const_ptr T ;;;
  WellFormed
    {| data := convert_int guest_pointer_type (int_bits uintptr_t) (data from) |}.

(** inline guest_layout<T*> to_guest(const host_layout<T*>& from)
    { guest_layout<T*> ret;
      ret.data = reinterpret_cast<uintptr_t>(from.data); return ret; } *)
Definition to_guest_ptr (T : CType) (from : Object) : Instantiation Object :=
  host_layout_ptr T ;;;
  WellFormed {| data := convert_int uintptr_t guest_pointer_bits (data from) |}.

(** The round trip of a guest pointer through the host wrapper:
    [to_guest(host_layout<T*> { g })]. *)
Definition round_trip (T : CType) (g : Object) : Instantiation Object :=
  (h <- host_layout_ptr_ctor T g ;; to_guest_ptr T h)%inst.

(** The representation invariant of [guest_layout<T*>]: [data] is an
    unsigned integer of the guest pointer width. *)
Definition guest_pointer_ok (g : Object) : Prop :=
  in_range guest_pointer_bits (data g).

(** *** host_layout<T>: constructors of the primary template *)

(** List-initialisation [data { from.data }] of a [T] from the member of
    a [guest_layout<T>]; narrowing conversions are ill-formed. *)
Definition list_init (src : GuestDataType) (T : CType) (v : Z)
  : Instantiation Z :=
  match src with
  | HostType => WellFormed v
  | FixedInt t =>
      match T with
      | Integer d =>
          if represents_all t d
          then WellFormed (convert_int t (int_bits d) v)
          else IllFormed narrowing_conversion
      | Boolean | Floating _ => IllFormed narrowing_conversion
      | _ => IllFormed no_viable_conversion
      end
  | Members _ => IllFormed no_viable_conversion
  end.

(** static_cast<T>(from.data) for an enum [T] with underlying type [u]. *)
Definition static_cast_enum (src : GuestDataType) (u : IntType) (v : Z)
  : Instantiation Z :=
  match src with
  | HostType => WellFormed v
  | FixedInt t => WellFormed (convert_int t (int_bits u) v)
  | Members _ => IllFormed no_viable_conversion
  end.

(** sizeof(from), for [from] a [guest_layout<T>] declared as [gl]. *)
Definition sizeof_guest (gl : GuestLayoutDef) (T : CType) : option Z :=
  match guest_data gl with
  | HostType => sizeof T
  | FixedInt t => sizeof (Integer t)
  | Members _ => None
  end.

Definition complete (sz : option Z) : Instantiation Z :=
  match sz with
  | Some n => WellFormed n
  | None => IllFormed incomplete_type
  end.

(** The member [data] of a [guest_layout<T>] declared as [gl] holds a
    value of its type. *)
Definition guest_object_ok (gl : GuestLayoutDef) (T : CType) (from : Object)
  : Prop :=
  match sizeof_guest gl T with
  | Some n => in_range (8 * n) (data from)
  | None => True
  end.

(** The two constructors of the primary template, selected by their
    requires-clauses, for a [guest_layout<T>] declared as [gl]:

    explicit host_layout(const guest_layout<T>& from)
        requires (!std::is_enum_v<T>) : data { from.data }
    { static_assert(sizeof(data) == sizeof(from)); }

    explicit host_layout(const guest_layout<T>& from)
        requires (std::is_enum_v<T>) : data { static_cast<T>(from.data) } { } *)
Definition host_layout_ctor_from (gl : GuestLayoutDef) (T : CType)
  (from : Object) : Instantiation Object :=
  host_layout_primary T ;;;
  match underlying_type_t T with
  | Some u =>
      v <- static_cast_enum (guest_data gl) u (data from) ;;
      WellFormed {| data := v |}
  | None =>
      v <- list_init (guest_data gl) T (data from) ;;
      size_data <- complete (sizeof T) ;;
      size_from <- complete (sizeof_guest gl T) ;;
      static_assert (size_data =? size_from)%Z "sizeof(data) == sizeof(from)" ;;;
      WellFormed {| data := v |}
  end.

(** *** to_guest *)

(** template<typename T>
    inline guest_layout<T> to_guest(const host_layout<T>& from)
        requires(!std::is_pointer_v<T>)
    for a [guest_layout<T>] declared as [gl]. *)
Definition to_guest_value (gl : GuestLayoutDef) (T : CType) (from : Object)
  : Instantiation Object :=
  match underlying_type_t T with
  | Some u =>
      (* guest_layout<T> { static_cast<std::underlying_type_t<T>>(from.data) } *)
      match guest_data gl with
      | FixedInt t =>
          if represents_all u t
          then WellFormed {| data := convert_int u (int_bits t) (data from) |}
          else IllFormed narrowing_conversion
      | HostType | Members _ => IllFormed no_viable_conversion
      end
  | None =>
      (* guest_layout<T> ret { .data = from.data }; *)
      match guest_data gl with
      | HostType => WellFormed {| data := data from |}
      | FixedInt t =>
          match T with
          | Integer s =>
              if represents_all s t
              then WellFormed {| data := convert_int s (int_bits t) (data from) |}
              else IllFormed narrowing_conversion
          | Boolean => WellFormed {| data := data from |}
          | Floating _ => IllFormed narrowing_conversion
          | _ => IllFormed no_viable_conversion
          end
      | Members _ => IllFormed no_viable_conversion
      end
  end.

(** The function a call [to_guest(h)] with [h] a [host_layout<T>] names.
    A generated non-template overload for [host_layout<A>] is preferred
    to the templates of the header; naming a deleted one is an error. *)
Inductive ToGuest :=
| generated_overload
| value_template
| pointer_template.

Definition to_guest_selected (T : CType) : Instantiation ToGuest :=
  match T with
  | Pointer U => WellFormed pointer_template
  | ConstPointer _ => IllFormed constraints_not_satisfied
  | _ =>
      match option_map (to_guest_overload gen) (tag_name T) with
      | Some (Some Deleted) => IllFormed deleted_function
      | Some (Some Provided) => WellFormed generated_overload
      | _ => WellFormed value_template
      end
  end.

End Build.

End Layout.

(** ** Callbacks: packed arguments, trampolines, unpackers *)

Module Runtime.
Import Cxx.

(** Modelled from the spec: PackedArguments.h is included by the header
    but is not part of the sources.  The record for a call of signature
    [R(A0, ..., An-1)] has a return slot [rv] (zero-sized when [R] is
    void; the model keeps a zero there) and one argument slot per
    argument, named [a0], [a1], ... and addressed by compile-time index.
    When the call carries a hidden trailing callback-context pointer, an
    additional slot follows.  Packing a call fills the argument slots
    in order and leaves the return slot zero until the callee writes
    it. *)
Record PackedArguments := { rv : Z; a : list Z }.

(** The member [a<k>] of a record with the given slots. *)
Definition field {A} (slots : list A) (k : nat) : Instantiation A :=
  match nth_error slots k with
  | Some s => WellFormed s
  | None => IllFormed (undeclared_identifier "a<k>")
  end.

(** struct GuestcallInfo *)
Record GuestcallInfo := {
  HostPacker : Z;
  CallCallback : Z;
  GuestUnpacker : Z;
  GuestTarget : Z
}.

(** struct ParameterAnnotations *)
Record ParameterAnnotations := {
  is_passthrough : bool;
  assume_compatible : bool
}.

(** The macros _M_X86_64 and _M_ARM_64 select the host architecture;
    the header defines the load macro for these two only. *)
Inductive HostArch := M_X86_64 | M_ARM_64 | OtherArch.

Inductive Register := r11 | x11.

(** Addresses of host code that the header takes:
    [&CallbackUnpack<F>::CallGuestPtr]. *)
Inductive CodeAddr := CallGuestPtr_of (F : CType).

Inductive Event :=
| called_CallCallback (fn : Z) (unpacker target : Z) (argsrv : PackedArguments)
| called_MakeHostTrampoline (packer : CodeAddr) (target unpacker : Z)
| called_FinalizeHostTrampoline (trampoline : Z) (packer : CodeAddr).

Inductive Fault :=
| null_call (symbol : string)
| invalid_read (address : Z)
| invalid_call (address : Z).

(** What surrounds the header at run time: the registers on entry, the
    [GuestcallInfo] objects in memory, the code behind function pointers
    (it receives the packed record by address and may write to it), and
    the two weakly linked emulator functions, which are null when the
    emulator does not provide them. *)
Record Environment := {
  registers : Register -> Z;
  guestcall_at : Z -> option GuestcallInfo;
  code_at : Z -> option (Z -> Z -> PackedArguments -> PackedArguments);
  FEXCore_MakeHostTrampolineForGuestFunction :
    option (CodeAddr -> Z -> Z -> Z);
  FEXCore_FinalizeHostTrampolineForGuestFunction :
    option (Z -> CodeAddr -> Z)
}.

(** Execution of host code: it returns or crashes, and leaves a trace of
    the calls it made. *)
Inductive Outcome (A : Type) :=
| Returns (trace : list Event) (result : A)
| Crashes (trace : list Event) (why : Fault).

Arguments Returns {A} trace result.
Arguments Crashes {A} trace why.

Definition ret {A} (x : A) : Outcome A := Returns [] x.

Definition seq {A B} (m : Outcome A) (k : A -> Outcome B) : Outcome B :=
  match m with
  | Returns t x =>
      match k x with
      | Returns t' y => Returns (t ++ t') y
      | Crashes t' f => Crashes (t ++ t') f
      end
  | Crashes t f => Crashes t f
  end.

End Runtime.

Declare Scope exec_scope.
Delimit Scope exec_scope with exec.
Notation "x <- e ;; k" := (Runtime.seq e (fun x => k))
  (at level 61, e at next level, right associativity) : exec_scope.
Notation "e ;;; k" := (Runtime.seq e (fun _ => k))
  (at level 61, right associativity) : exec_scope.

Module Callback.
Import Cxx Runtime.

(** #if defined(_M_X86_64)  asm volatile("mov %%r11, %0" : "=r" (target_variable))
    #elif defined(_M_ARM_64)  asm volatile("mov %0, x11" : "=r" (target_variable))
    On another architecture the macro is not defined. *)
Definition LOAD_INTERNAL_GUESTPTR_VIA_CUSTOM_ABI (arch : HostArch)
  : Instantiation Register :=
  match arch with
  | M_X86_64 => WellFormed r11
  | M_ARM_64 => WellFormed x11
  | OtherArch =>
      IllFormed (undeclared_identifier "LOAD_INTERNAL_GUESTPTR_VIA_CUSTOM_ABI")
  end.

(** guestcall-> *)
Definition deref (env : Environment) (p : Z) : Outcome GuestcallInfo :=
  match guestcall_at env p with
  | Some g => ret g
  | None => Crashes [] (invalid_read p)
  end.

(** guestcall->CallCallback(unpacker, target, &packed_args) *)
Definition call_CallCallback (env : Environment) (fn unpacker target : Z)
  (argsrv : PackedArguments) : Outcome PackedArguments :=
  match code_at env fn with
  | Some f =>
      Returns [called_CallCallback fn unpacker target argsrv]
              (f unpacker target argsrv)
  | None => Crashes [] (invalid_call fn)
  end.

(** template<typename Result, typename... Args>
    struct CallbackUnpack<Result(Args...)> {
      static Result CallGuestPtr(Args... args) {
        GuestcallInfo *guestcall;
        LOAD_INTERNAL_GUESTPTR_VIA_CUSTOM_ABI(guestcall);
        PackedArguments<Result, Args...> packed_args = { args... };
        guestcall->CallCallback(guestcall->GuestUnpacker,
                                guestcall->GuestTarget, &packed_args);
        if constexpr (!std::is_void_v<Result>) { return packed_args.rv; }
      } };
    The result is [None] when the function returns no value. *)
Definition CallGuestPtr (arch : HostArch) (Result : CType)
  (Args : list CType) (env : Environment) (args : list Z)
  : Instantiation (Outcome (option Z)) :=
  Cxx.bind (LOAD_INTERNAL_GUESTPTR_VIA_CUSTOM_ABI arch) (fun hidden =>
  WellFormed
    (let guestcall := registers env hidden in
     let packed_args := {| rv := 0; a := args |} in
     info <- deref env guestcall ;;
     packed_args' <- call_CallCallback env (CallCallback info)
                       (GuestUnpacker info) (GuestTarget info) packed_args ;;
     if negb (is_void_v Result)
     then ret (Some (rv packed_args'))
     else ret None)%exec).

(** [&CallbackUnpack<F>::CallGuestPtr]: only the specialisation for
    function types [Result(Args...)] is defined. *)
Definition address_of_CallGuestPtr (F : CType) : Instantiation CodeAddr :=
  if is_function_v F then WellFormed (CallGuestPtr_of F)
  else IllFormed incomplete_type.

(** Calls through the weak symbols.  A weak symbol the emulator does not
    provide is null, and the call goes through the null address. *)
Definition call_weak_Make (env : Environment) (packer : CodeAddr)
  (target unpacker : Z) : Outcome Z :=
  match FEXCore_MakeHostTrampolineForGuestFunction env with
  | Some f =>
      Returns [called_MakeHostTrampoline packer target unpacker]
              (f packer target unpacker)
  | None => Crashes [] (null_call "FEXCore::MakeHostTrampolineForGuestFunction")
  end.

Definition call_weak_Finalize (env : Environment) (trampoline : Z)
  (packer : CodeAddr) : Outcome Z :=
  match FEXCore_FinalizeHostTrampolineForGuestFunction env with
  | Some f =>
      Returns [called_FinalizeHostTrampoline trampoline packer]
              (f trampoline packer)
  | None =>
      Crashes [] (null_call "FEXCore::FinalizeHostTrampolineForGuestFunction")
  end.

(** template<typename FuncType>
    void MakeHostTrampolineForGuestFunctionAt(uintptr_t GuestTarget,
        uintptr_t GuestUnpacker, FuncType **Func) {
      *Func = (FuncType-pointer)FEXCore::MakeHostTrampolineForGuestFunction(
          (void-pointer)&CallbackUnpack<FuncType>::CallGuestPtr,
          GuestTarget, GuestUnpacker); }
    The result is the value stored to [*Func]. *)
Definition MakeHostTrampolineForGuestFunctionAt (FuncType : CType)
  (env : Environment) (GuestTarget GuestUnpacker : Z)
  : Instantiation (Outcome Z) :=
  Cxx.bind (address_of_CallGuestPtr FuncType) (fun packer =>
  WellFormed (call_weak_Make env packer GuestTarget GuestUnpacker)).

(** template<typename F>
    void FinalizeHostTrampolineForGuestFunction(
        F* PreallocatedTrampolineForGuestFunction) *)
Definition FinalizeHostTrampolineForGuestFunction (F : CType)
  (env : Environment) (PreallocatedTrampolineForGuestFunction : Z)
  : Instantiation (Outcome unit) :=
  Cxx.bind (address_of_CallGuestPtr F) (fun packer =>
  WellFormed
    (call_weak_Finalize env PreallocatedTrampolineForGuestFunction packer ;;;
     ret tt)%exec).

(** template<typename F>
    void FinalizeHostTrampolineForGuestFunction(
        guest_layout<F*> PreallocatedTrampolineForGuestFunction)
    passes [PreallocatedTrampolineForGuestFunction.data]. *)
Definition FinalizeHostTrampolineForGuestFunction_guest (F : CType)
  (env : Environment)
  (PreallocatedTrampolineForGuestFunction : Layout.Object)
  : Instantiation (Outcome unit) :=
  Cxx.bind (address_of_CallGuestPtr F) (fun packer =>
  WellFormed
    (call_weak_Finalize env
       (Layout.data PreallocatedTrampolineForGuestFunction) packer ;;;
     ret tt)%exec).

(** *** GuestWrapperForHostFunction<Result(Args...)>::Call *)

(** A slot of the record [Call] reads: [guest_layout<T>] or a plain
    type. *)
Inductive Slot := guest_layout_of (T : CType) | plain (T : CType).

(** The chain of [if constexpr (CBIndex == k) cb = args->a<k>;]: the
    index of the member that is read, if any branch is taken. *)
Definition cb_member (CBIndex : nat) : option nat :=
  if CBIndex =? 0 then Some 0
  else if CBIndex =? 1 then Some 1
  else if CBIndex =? 2 then Some 2
  else if CBIndex =? 3 then Some 3
  else if CBIndex =? 4 then Some 4
  else if CBIndex =? 5 then Some 5
  else if CBIndex =? 6 then Some 6
  else if CBIndex =? 7 then Some 7
  else if CBIndex =? 8 then Some 8
  else if CBIndex =? 9 then Some 9
  else if CBIndex =? 10 then Some 10
  else if CBIndex =? 11 then Some 11
  else if CBIndex =? 12 then Some 12
  else if CBIndex =? 13 then Some 13
  else if CBIndex =? 14 then Some 14
  else if CBIndex =? 15 then Some 15
  else if CBIndex =? 16 then Some 16
  else if CBIndex =? 17 then Some 17
  else if CBIndex =? 18 then Some 18
  else if CBIndex =? 23 then Some 23
  else None.

(** What an instantiation of [Call] fixes: the slots of the record it
    reads, the member the callback target is read from, and the
    parameter types of the host function it calls. *)
Record CallInstance := {
  record_slots : list Slot;
  cb_index : option nat;
  cb_slot : option Slot;
  callback_params : list Slot
}.

(** The head of
      template<ParameterAnnotations... Annotations>
      static void Call(void* argsv)
    the two assertions and the chain that reads the callback target,
    with the types the cast of [cb] names.  The rest of the body, the
    lambda and its call, needs the layout wrappers and follows them (see
    [Conversion.Call]). *)
Definition Call_prologue (Annotations : list ParameterAnnotations)
  (Result : CType) (Args : list CType) : Instantiation CallInstance :=
  (static_assert (List.length Annotations =? List.length Args)
     "sizeof...(Annotations) == sizeof...(Args)" ;;;
   (* PackedArguments<Result, guest_layout<Args>..., uintptr_t> *)
   let slots := map guest_layout_of Args ++ [plain (Integer uintptr_t)] in
   let CBIndex := List.length Args in
   static_assert ((CBIndex <=? 18) || (CBIndex =? 23))
     "CBIndex <= 18 || CBIndex == 23" ;;;
   slot <-
     match cb_member CBIndex with
     | Some k => s <- field slots k ;; WellFormed (Some s)
     | None => WellFormed None
     end ;;
   WellFormed
     {| record_slots := slots;
        cb_index := cb_member CBIndex;
        cb_slot := slot;
        (* std::conditional_t<Annotations.is_passthrough,
                              guest_layout<Args>, Args>..., uintptr_t *)
        callback_params :=
          map (fun p : ParameterAnnotations * CType =>
                 if is_passthrough (fst p) then guest_layout_of (snd p)
                 else plain (snd p))
              (combine Annotations Args)
          ++ [plain (Integer uintptr_t)] |})%inst.

(** [cb = args->a<k>] on a record at run time. *)
Definition read_cb (inst : CallInstance) (args : PackedArguments)
  : option Z :=
  match cb_index inst with
  | Some k => nth_error (a args) k
  | None => None
  end.

End Callback.

(** ** The export table *)

Module Exports.
Import Cxx.

(** What the [fn] member of an entry points to. *)
Inductive Unpacker :=
| fexfn_type_erased_unpack (unpack_function : string)
| GuestWrapperForHostFunction_Call (signature : CType).

(** What the [sha256] member of an entry points to: the digest of a
    thunked function's signature or of a callback signature. *)
Inductive Digest :=
| digest_of_function (libname name : string)
| digest_of_callback (signature : CType).

(** struct ExportEntry { uint8_t* sha256; void(*fn)(void *); };
    A null pointer is [None]. *)
Record ExportEntry := {
  sha256 : option Digest;
  fn : option Unpacker
}.

Definition sentinel : ExportEntry := {| sha256 := None; fn := None |}.

Definition is_sentinel (e : ExportEntry) : bool :=
  match sha256 e, fn e with
  | None, None => true
  | _, _ => false
  end.

End Exports.

(** ** The thunk generator *)

Module Generator.
Import Cxx Exports.

(** Modelled from the spec: the thunk generator (data layout analysis,
    guest emitter, host emitter) is not part of the sources; the sources
    hold its unit tests only.  The definitions of this module follow
    sections 4.2, 4.4, 4.5 and 8 of the specification. *)
Inductive Classification := Identical | Repackable | Incompatible | Opaque.

Record FunctionDecl := {
  fn_name : string;
  fn_result : CType;
  fn_params : list CType;
  fn_variadic : bool
}.

Record FunctionConfig := {
  custom_host_impl : bool;
  returns_guest_pointer : bool;
  uniform_va_type : option CType
}.

Definition base_config : FunctionConfig :=
  {| custom_host_impl := false;
     returns_guest_pointer := false;
     uniform_va_type := None |}.

Inductive Generation (A : Type) :=
| Emitted (a : A)
| Aborted (diagnostic : string).

Arguments Emitted {A} a.
Arguments Aborted {A} diagnostic.

(** Modelled from the spec: the function type behind a function-pointer
    type (section 4.4: every function-pointer type appearing among the
    arguments or the return type is a callback signature). *)
Definition callback_signature (T : CType) : option CType :=
  match T with
  | Pointer (Function r ps) | ConstPointer (Function r ps) =>
      Some (Function r ps)
  | _ => None
  end.

Fixpoint callback_signatures (Ts : list CType) : list CType :=
  match Ts with
  | [] => []
  | T :: Ts' =>
      match callback_signature T with
      | Some sig => sig :: callback_signatures Ts'
      | None => callback_signatures Ts'
      end
  end.

Fixpoint mem (T : CType) (Ts : list CType) : bool :=
  match Ts with
  | [] => false
  | U :: Ts' => CType_eqb T U || mem T Ts'
  end.

(** The distinct elements of a list, first occurrences kept. *)
Fixpoint distinct_from (seen Ts : list CType) : list CType :=
  match Ts with
  | [] => []
  | T :: Ts' =>
      if mem T seen then distinct_from seen Ts'
      else T :: distinct_from (T :: seen) Ts'
  end.

Definition distinct (Ts : list CType) : list CType := distinct_from [] Ts.

(** A generator input: the declared functions with their configuration,
    and the types configured through [fex_gen_type]. *)
Record Input := {
  functions : list (FunctionDecl * FunctionConfig);
  configured_types : list CType
}.

(** Modelled from the spec: the callback signatures of an input are the
    function-pointer types among the arguments and return types of the
    declared functions, and the function types configured per type (the
    test FunctionPointerViaType configures [int(char, char)] so). *)
Definition all_callback_signatures (inp : Input) : list CType :=
  distinct
    (flat_map (fun fc : FunctionDecl * FunctionConfig =>
                 callback_signatures (fn_result (fst fc) :: fn_params (fst fc)))
              (functions inp)
     ++ filter is_function_v (configured_types inp)).

Definition function_entry (libname : string) (f : FunctionDecl)
  : ExportEntry :=
  {| sha256 := Some (digest_of_function libname (fn_name f));
     fn := Some (fexfn_type_erased_unpack
                   ("fexfn_unpack_" ++ libname ++ "_" ++ fn_name f)%string) |}.

Definition callback_entry (sig : CType) : ExportEntry :=
  {| sha256 := Some (digest_of_callback sig);
     fn := Some (GuestWrapperForHostFunction_Call sig) |}.

(** Modelled from the spec (section 4.5): a module-scope [exports]
    array of ExportEntry, one entry per function plus one per distinct
    callback signature, terminated by a zero entry. *)
Definition exports (libname : string) (inp : Input) : list ExportEntry :=
  map (fun fc => function_entry libname (fst fc)) (functions inp)
  ++ map callback_entry (all_callback_signatures inp)
  ++ [sentinel].

(** Modelled from the spec (sections 4.3, 4.4, 7, 8): the internal
    packer the guest emitter produces for a function.  A variadic
    function needs [uniform_va_type]; its packer receives the count as
    an additional [unsigned long] before the pointer to the array of
    that type, and is named [fexfn_pack_<name>_internal].  Returning a
    function pointer needs [returns_guest_pointer]. *)
Record PackerDecl := {
  packer_name : string;
  packer_result : CType;
  packer_params : list CType
}.

Definition guest_packer (f : FunctionDecl) (cfg : FunctionConfig)
  : Generation PackerDecl :=
  match callback_signature (fn_result f), returns_guest_pointer cfg with
  | Some _, false =>
      Aborted "function returns a function pointer without returns_guest_pointer"
  | _, _ =>
      if fn_variadic f then
        match uniform_va_type cfg with
        | None => Aborted "variadic function without uniform_va_type"
        | Some T =>
            Emitted
              {| packer_name := ("fexfn_pack_" ++ fn_name f ++ "_internal")%string;
                 packer_result := fn_result f;
                 packer_params :=
                   fn_params f ++ [Integer unsigned_long; Pointer T] |}
        end
      else
        Emitted
          {| packer_name := ("fexfn_pack_" ++ fn_name f)%string;
             packer_result := fn_result f;
             packer_params := fn_params f |}
  end.

(** Modelled from the spec (sections 3, 4.2, 8): the layout wrappers the
    host emitter places next to the header for an aggregate [A] with the
    given members.  Identical: a transparent [guest_layout<A>].
    Repackable: one [guest_layout] member per member of [A].
    Incompatible: neither wrapper is completely defined and [to_guest]
    is deleted, unless [emit_layout_wrappers] is given, which makes the
    wrappers those of a repackable type.  [host_layout<A>::data] is an [A]
    whenever it is defined.  Nothing is specified for opaque types. *)
Record Wrappers := {
  guest_wrapper : Layout.Specialization Layout.GuestLayoutDef;
  host_wrapper : Layout.Specialization Layout.HostLayoutDef;
  to_guest_wrapper : Layout.Overload
}.

Definition fieldwise (A : CType) (members : list (string * CType))
  : Wrappers :=
  {| guest_wrapper :=
       Layout.Defined {| Layout.guest_data := Layout.Members members |};
     host_wrapper := Layout.Defined {| Layout.host_data := A |};
     to_guest_wrapper := Layout.Provided |}.

Definition layout_wrappers (c : Classification) (emit_layout_wrappers : bool)
  (A : CType) (members : list (string * CType)) : option Wrappers :=
  match c with
  | Identical =>
      Some {| guest_wrapper :=
                Layout.Defined {| Layout.guest_data := Layout.HostType |};
              host_wrapper := Layout.Defined {| Layout.host_data := A |};
              to_guest_wrapper := Layout.Provided |}
  | Repackable => Some (fieldwise A members)
  | Incompatible =>
      if emit_layout_wrappers then Some (fieldwise A members)
      else Some {| guest_wrapper := Layout.DeclaredOnly;
                   host_wrapper := Layout.DeclaredOnly;
                   to_guest_wrapper := Layout.Deleted |}
  | Opaque => None
  end.

(** enum class GuestABI of the generator's interface, as the tests name
    its values. *)
Inductive GuestABI := X86_32 | X86_64.

(** The annotations a parameter can carry through [fex_gen_param]
    (section 4.3 of the specification). *)
Record ParameterConfig := {
  ptr_passthrough : bool;
  assume_compatible_data_layout : bool
}.

(** Modelled from the spec: the treatment of a function parameter of
    type [void*] by the generator, which is not part of the sources.
    Section 7 lists among the generation-time errors "unsupported
    parameter type (notably bare void* on 32-bit guests without
    annotation)", and section 8 gives the policy: without annotation on
    a 32-bit guest, generation fails with a diagnostic containing
    "unsupported parameter type"; on 64-bit the parameter is acceptable;
    with [ptr_passthrough] or [assume_compatible_data_layout] it is
    acceptable on both.  (The test case "VoidPointerParameter" asserts
    the last two; its assertion of the first is commented out under the
    note "TODO: Currently not considered an error".) *)
Definition void_pointer_parameter (guest_abi : GuestABI)
  (annotation : ParameterConfig) : Generation unit :=
  if ptr_passthrough annotation || assume_compatible_data_layout annotation
  then Emitted tt
  else match guest_abi with
       | X86_32 => Aborted "unsupported parameter type"
       | X86_64 => Emitted tt
       end.

(** The generated declarations for one aggregate named [name], as the
    header sees them. *)
Definition generated_for (name : string) (w : option Wrappers)
  : Layout.Generated :=
  {| Layout.guest_layout_spec :=
       fun n => if String.eqb n name then option_map guest_wrapper w else None;
     Layout.host_layout_spec :=
       fun n => if String.eqb n name then option_map host_wrapper w else None;
     Layout.to_guest_overload :=
       fun n => if String.eqb n name then option_map to_guest_wrapper w
                else None |}.

End Generator.

(** ** The unit tests of the generator *)

Module Tests.
Import Cxx.

(** Outcome of a generator run inside a test. *)
Inductive Run := completes | throws (what : string).

Definition outcome {A} (g : Generator.Generation A) : Run :=
  match g with
  | Generator.Emitted _ => completes
  | Generator.Aborted diagnostic => throws diagnostic
  end.

(** The Catch2 assertions the tests make about a run. *)
Inductive Check :=
| CHECK_NOTHROW
| CHECK_THROWS_WITH_Contains (needle : string).

Definition lower_ascii (c : ascii) : ascii :=
  let n := nat_of_ascii c in
  if (65 <=? n) && (n <=? 90) then ascii_of_nat (n + 32) else c.

Fixpoint lower (s : string) : string :=
  match s with
  | EmptyString => EmptyString
  | String c s' => String (lower_ascii c) (lower s')
  end.

Fixpoint contains (needle hay : string) : bool :=
  String.prefix needle hay
  || match hay with
     | EmptyString => false
     | String _ hay' => contains needle hay'
     end.

(** Catch::Contains(needle, Catch::CaseSensitive::No) *)
Definition Contains_nocase (needle hay : string) : bool :=
  contains (lower needle) (lower hay).

Definition holds (c : Check) (r : Run) : bool :=
  match c, r with
  | CHECK_NOTHROW, completes => true
  | CHECK_THROWS_WITH_Contains needle, throws what =>
      Contains_nocase needle what
  | _, _ => false
  end.

(** The four sections of TEST_CASE_METHOD(Fixture, "VoidPointerParameter"),
    each a generator input:
    - Unannotated:  void func(void* p);  with an empty fex_gen_config<func>
    - Passthrough:  the same function, custom_host_impl, parameter 0
                    annotated ptr_passthrough
    - Assumed compatible:  parameter 0 annotated
                    assume_compatible_data_layout
    - Unannotated in struct:  struct A { void* a; };  void func(A* p); *)
Inductive VoidPointerInput :=
| Unannotated
| Passthrough
| Assumed_compatible
| Unannotated_in_struct.

(** The assertions the test case makes for a guest ABI.  In section
    Unannotated the X86_32 branch holds a comment only:
      // TODO: Currently not considered an error
      // CHECK_THROWS_WITH(run_thunkgen_host(...),
      //     Catch::Contains("unsupported parameter type", ...)); *)
Definition VoidPointerParameter (guest_abi : Generator.GuestABI)
  : list (VoidPointerInput * Check) :=
  match guest_abi with
  | Generator.X86_32 => []
  | Generator.X86_64 => [(Unannotated, CHECK_NOTHROW)]
  end
  ++ [(Passthrough, CHECK_NOTHROW)]
  ++ [(Assumed_compatible, CHECK_NOTHROW)]
  ++ match guest_abi with
     | Generator.X86_32 =>
         [(Unannotated_in_struct,
           CHECK_THROWS_WITH_Contains "unsupported parameter type")]
     | Generator.X86_64 => [(Unannotated_in_struct, CHECK_NOTHROW)]
     end.

(** The annotation of parameter 0 in the three sections that declare
    void func(void* p);  the fourth declares a pointer to struct A. *)
Definition parameter_annotation (input : VoidPointerInput)
  : option Generator.ParameterConfig :=
  match input with
  | Unannotated =>
      Some {| Generator.ptr_passthrough := false;
              Generator.assume_compatible_data_layout := false |}
  | Passthrough =>
      Some {| Generator.ptr_passthrough := true;
              Generator.assume_compatible_data_layout := false |}
  | Assumed_compatible =>
      Some {| Generator.ptr_passthrough := false;
              Generator.assume_compatible_data_layout := true |}
  | Unannotated_in_struct => None
  end.

(** The inputs of the other test cases the development refers to. *)
Definition char_type : CType := Integer char_t.
Definition int_type : CType := Integer int_t.
Definition int_char_char : CType := Function int_type [char_type; char_type].

(** "Trivial":  void func(); *)
Definition Trivial : Generator.Input :=
  {| Generator.functions :=
       [({| Generator.fn_name := "func"; Generator.fn_result := Void;
            Generator.fn_params := []; Generator.fn_variadic := false |},
         Generator.base_config)];
     Generator.configured_types := [] |}.

(** "FunctionPointerViaType":  fex_gen_type<int(char, char)> *)
Definition FunctionPointerViaType : Generator.Input :=
  {| Generator.functions := [];
     Generator.configured_types := [int_char_char] |}.

(** "FunctionPointerParameter":  void func(funcptr);  where funcptr is
    a pointer to int(char, char) *)
Definition FunctionPointerParameter : Generator.Input :=
  {| Generator.functions :=
       [({| Generator.fn_name := "func"; Generator.fn_result := Void;
            Generator.fn_params := [Pointer int_char_char];
            Generator.fn_variadic := false |},
         Generator.base_config)];
     Generator.configured_types := [] |}.

(** "MultipleParameters":
    void func(int arg, char, unsigned long, TestStruct); *)
Definition MultipleParameters : Generator.Input :=
  {| Generator.functions :=
       [({| Generator.fn_name := "func"; Generator.fn_result := Void;
            Generator.fn_params :=
              [int_type; char_type; Integer unsigned_long; Class "TestStruct"];
            Generator.fn_variadic := false |},
         Generator.base_config)];
     Generator.configured_types := [] |}.

(** "VariadicFunction":  void func(int arg, ...);
    with  using uniform_va_type = char; *)
Definition VariadicFunction : Generator.FunctionDecl * Generator.FunctionConfig :=
  ({| Generator.fn_name := "func"; Generator.fn_result := Void;
      Generator.fn_params := [int_type]; Generator.fn_variadic := true |},
   {| Generator.custom_host_impl := false;
      Generator.returns_guest_pointer := false;
      Generator.uniform_va_type := Some char_type |}).

(** "ReturnFunctionPointer":  funcptr func(int);  where funcptr is a
    pointer to void(char, char).  The test requires a throw with the
    base configuration and none with returns_guest_pointer. *)
Definition ReturnFunctionPointer : Generator.FunctionDecl :=
  {| Generator.fn_name := "func";
     Generator.fn_result := Pointer (Function Void [char_type; char_type]);
     Generator.fn_params := [int_type]; Generator.fn_variadic := false |}.

Definition with_returns_guest_pointer : Generator.FunctionConfig :=
  {| Generator.custom_host_impl := false;
     Generator.returns_guest_pointer := true;
     Generator.uniform_va_type := None |}.

(** "LayoutWrappers":  struct A with the members [int a; int b;], and in
    section "Incompatible type, annotated" with [B* a; int b;]. *)
Definition A : CType := Class "A".

Definition A_members : list (string * CType) :=
  [("a"%string, int_type); ("b"%string, int_type)].

Definition A_members_annotated : list (string * CType) :=
  [("a"%string, Pointer (Class "B")); ("b"%string, int_type)].

End Tests.

(** ** Concrete inputs *)

Module Examples.
Import Cxx.

(** A thunk library loaded without the emulator: the weak symbols are
    null. *)
Definition without_emulator : Runtime.Environment :=
  {| Runtime.registers := fun _ => 0%Z;
     Runtime.guestcall_at := fun _ => None;
     Runtime.code_at := fun _ => None;
     Runtime.FEXCore_MakeHostTrampolineForGuestFunction := None;
     Runtime.FEXCore_FinalizeHostTrampolineForGuestFunction := None |}.

(** A trampoline call: the hidden register holds 4096, where a
    [GuestcallInfo] lives whose [CallCallback] (at 8192) writes the sum
    of the unpacker and target addresses to the return slot. *)
Definition guestcall : Runtime.GuestcallInfo :=
  {| Runtime.HostPacker := 12288;
     Runtime.CallCallback := 8192;
     Runtime.GuestUnpacker := 100;
     Runtime.GuestTarget := 23 |}%Z.

Definition with_emulator : Runtime.Environment :=
  {| Runtime.registers := fun _ => 4096%Z;
     Runtime.guestcall_at :=
       fun p => if (p =? 4096)%Z then Some guestcall else None;
     Runtime.code_at :=
       fun fn =>
         if (fn =? 8192)%Z
         then Some (fun unpacker target argsrv =>
                      {| Runtime.rv := (unpacker + target)%Z;
                         Runtime.a := Runtime.a argsrv |})
         else None;
     Runtime.FEXCore_MakeHostTrampolineForGuestFunction :=
       Some (fun _ target _ => (target + 1)%Z);
     Runtime.FEXCore_FinalizeHostTrampolineForGuestFunction :=
       Some (fun trampoline _ => trampoline) |}.

(** A thunked function without parameters:  void name(); *)
Definition nullary (name : string) : Generator.FunctionDecl :=
  {| Generator.fn_name := name; Generator.fn_result := Void;
     Generator.fn_params := []; Generator.fn_variadic := false |}.

(** enum E : unsigned char, with a generated [guest_layout<E>] whose
    member is a [uint8_t]. *)
Definition E : CType := Enum "E" uint8_t.

(** enum L : long, eight bytes on the host.  On a 32-bit guest [long]
    has four bytes, and the wrapper of [L] holds a 32-bit integer. *)
Definition L : CType := Enum "L" long_t.

Definition guest_layout_L : Layout.GuestLayoutDef :=
  {| Layout.guest_data := Layout.FixedInt int_t |}.

End Examples.

(** ** Conversions built on the layout wrappers *)

Module Conversion.
Import Cxx Layout.
Local Open Scope inst_scope.

(** A host value of type [T] holds a value of its width. *)
Definition host_object_ok (T : CType) (h : Object) : Prop :=
  match sizeof T with
  | Some n => in_range (8 * n) (data h)
  | None => True
  end.

(** What [Projection] returns: the [guest_layout<T>] itself, or the
    member [data] of a [host_layout<T>]. *)
Inductive Projected :=
| as_guest_layout (g : Object)
| as_host (v : Z).

Section Build.

Variable IS_32BIT_THUNK : bool.

Variable gen : Generated.

(** The constructor from [guest_layout<A>] of a generated
    [host_layout<A>] specialisation; it is generated code, not part of
    the header. *)
Variable generated_ctor : string -> Object -> Instantiation Object.

(** [host_layout<T> { from }] for a [guest_layout<T>] object [from]: the
    constructor of the specialisation the compiler selects. *)
Definition host_layout_construct (T : CType) (from : Object)
  : Instantiation Object :=
  match T with
  | Pointer U => host_layout_ptr_ctor IS_32BIT_THUNK U from
  | ConstPointer U => host_layout_const_ptr_ctor IS_32BIT_THUNK U from
  | _ =>
      match tag_name T with
      | Some n =>
          match host_layout_spec gen n with
          | Some DeclaredOnly => IllFormed incomplete_type
          | Some (Defined _) => generated_ctor n from
          | None =>
              gl <- guest_layout IS_32BIT_THUNK gen T ;;
              host_layout_ctor_from gl T from
          end
      | None =>
          gl <- guest_layout IS_32BIT_THUNK gen T ;;
          host_layout_ctor_from gl T from
      end
  end.

(** template<ParameterAnnotations Annotation, typename T>
    auto Projection(guest_layout<T>& data) {
      if constexpr (Annotation.is_passthrough) { return data; }
      else { return host_layout<T> { data }.data; } }
    Returning [data] copies a [guest_layout<T>], which must be complete. *)
Definition Projection (Annotation : Runtime.ParameterAnnotations)
  (T : CType) (data_ : Object) : Instantiation Projected :=
  if Runtime.is_passthrough Annotation
  then guest_layout IS_32BIT_THUNK gen T ;;; WellFormed (as_guest_layout data_)
  else h <- host_layout_construct T data_ ;; WellFormed (as_host (data h)).

(** template<typename T>
    const host_layout<T>& to_host_layout(const T& t) {
      static_assert(std::is_same_v<decltype(host_layout<T>::data), T>);
      return reinterpret_cast<const host_layout<T>&>(t); } *)
Definition to_host_layout (T : CType) (t : Z) : Instantiation Object :=
  hl <- host_layout gen T ;;
  static_assert (CType_eqb (host_data hl) T)
    "std::is_same_v<decltype(host_layout<T>::data), T>" ;;;
  WellFormed {| data := t |}.

(** The pack expansion [Projection<Annotations, Args>(args)...], over
    the elements matched up in triplets. *)
Fixpoint Projections
  (triplets : list (Runtime.ParameterAnnotations * (CType * Object)))
  : Instantiation (list Projected) :=
  match triplets with
  | [] => WellFormed []
  | (Annotation, (T, arg)) :: rest =>
      p <- Projection Annotation T arg ;;
      ps <- Projections rest ;;
      WellFormed (p :: ps)
  end.

(** The lambda in [GuestWrapperForHostFunction<Result(Args...)>::Call]:
    auto f = [&callback](guest_layout<Args>... args, uintptr_t target)
               -> Result {
      return callback(Projection<Annotations, Args>(args)..., target); };
    after the assertions of [Call], which make the packs equally long.
    The result is the list of arguments [callback] is called with. *)
Definition Call_f (Annotations : list Runtime.ParameterAnnotations)
  (Result : CType) (Args : list CType) (args : list Object) (target : Z)
  : Instantiation (list Projected) :=
  Callback.Call_prologue Annotations Result Args ;;;
  ps <- Projections (combine Annotations (combine Args args)) ;;
  WellFormed (ps ++ [as_host target]).

(** The types [guest_layout<Args>...]: the argument members of the
    record [Call] reads and the by-value parameters of its lambda.  They
    must be complete. *)
Fixpoint guest_layouts (Args : list CType)
  : Instantiation (list GuestLayoutDef) :=
  match Args with
  | [] => WellFormed []
  | T :: rest =>
      gl <- guest_layout IS_32BIT_THUNK gen T ;;
      gls <- guest_layouts rest ;;
      WellFormed (gl :: gls)
  end.

(** template<ParameterAnnotations... Annotations>
    static void Call(void* argsv)
    of [GuestWrapperForHostFunction<Result(Args...)>], whole: the
    assertions and the read of [cb], the record and the lambda
    parameters of type [guest_layout<Args>...], and the lambda that
    calls [callback] with the projected arguments.  [args] are the
    argument members of the record at [argsv] and [target] is its last
    member, as [Invoke] hands them to the lambda ([Invoke] is declared
    in PackedArguments.h, which is not part of the sources; what it
    passes on is taken as these two parameters).  The instantiation is
    ill-formed when any of its parts is; otherwise it yields what [Call]
    fixes and the arguments [callback] receives. *)
Definition Call (Annotations : list Runtime.ParameterAnnotations)
  (Result : CType) (Args : list CType) (args : list Object) (target : Z)
  : Instantiation (Callback.CallInstance * list Projected) :=
  inst <- Callback.Call_prologue Annotations Result Args ;;
  guest_layouts Args ;;;
  callback_args <- Call_f Annotations Result Args args target ;;
  WellFormed (inst, callback_args).

End Build.

(** std::conditional_t<Annotations.is_passthrough, guest_layout<Args>, Args>:
    the parameter type [Call] gives the callback for one argument. *)
Definition callback_param (p : Runtime.ParameterAnnotations * CType)
  : Callback.Slot :=
  if Runtime.is_passthrough (fst p) then Callback.guest_layout_of (snd p)
  else Callback.plain (snd p).

(** Whether an argument is of the kind a parameter of the callback
    takes: a [guest_layout] object or a plain host value. *)
Definition fits (p : Projected) (s : Callback.Slot) : Prop :=
  match p, s with
  | as_guest_layout _, Callback.guest_layout_of _ => True
  | as_host _, Callback.plain _ => True
  | _, _ => False
  end.

End Conversion.

(** ** The test harness of generator.cpp *)

Module Harness.

Section Matching.

(** clang's match results and AST nodes, and
    [result.Nodes.getNodeAs<NodeType>(name)], which is null when the
    binding is missing or has another type. *)
Variables MatchResult Node NodeType : Type.

Variable getNodeAs : NodeType -> MatchResult -> string -> option Node.

(** using CheckFn = std::function<bool(const MatchFinder::MatchResult&)> *)
Definition CheckFn : Type := MatchResult -> bool.

(** class MatchCallback { bool success = false;
                          std::vector<CheckFn> binding_checks; ... } *)
Record MatchCallback := {
  success : bool;
  binding_checks : list CheckFn
}.

Definition new_MatchCallback : MatchCallback :=
  {| success := false; binding_checks := [] |}.

(** void check_binding(std::string_view binding_name, check_fn), with
    check_fn a pointer to a function from a node to bool:
    pushes a check that extracts the node and is false without one. *)
Definition check_binding (K : NodeType) (binding_name : string)
  (check_fn : Node -> bool) (cb : MatchCallback) : MatchCallback :=
  {| success := success cb;
     binding_checks :=
       binding_checks cb
       ++ [fun result =>
             match getNodeAs K result binding_name with
             | Some node => check_fn node
             | None => false
             end] |}.

(** void run(const MatchFinder::MatchResult& result) override {
      success = true;
      for (auto& binding_check : binding_checks)
        success = success && binding_check(result); } *)
Definition run (cb : MatchCallback) (result : MatchResult) : MatchCallback :=
  {| success :=
       fold_left (fun s (binding_check : CheckFn) => s && binding_check result)
         (binding_checks cb) true;
     binding_checks := binding_checks cb |}.

(** bool matched() const noexcept { return success; } *)
Definition matched (cb : MatchCallback) : bool := success cb.

(** bool HasASTMatching::match(const SourceWithAST& code) const:
    a copy of the callback is run on every match the finder reports for
    the matcher, in the order [found], and asked whether it matched. *)
Definition HasASTMatching_match (callback : MatchCallback)
  (found : list MatchResult) : bool :=
  matched (fold_left run found callback).

End Matching.

Arguments success {MatchResult} m.
Arguments binding_checks {MatchResult} m.
Arguments new_MatchCallback {MatchResult}.
Arguments check_binding {MatchResult Node NodeType} getNodeAs K binding_name check_fn cb.
Arguments run {MatchResult} cb result.
Arguments matched {MatchResult} cb.
Arguments HasASTMatching_match {MatchResult} callback found.

(** *** Text of the generated host module *)

Definition text : Type := list ascii.

Definition space : ascii := " "%char.

Definition NUL : ascii := Ascii.zero.

(** The literals of the loop: "static " and six spaces. *)
Definition static_ : text := list_ascii_of_string "static ".

Definition six_spaces : text := repeat space 6.

Fixpoint starts_with (needle s : text) : bool :=
  match needle, s with
  | [], _ => true
  | c :: needle', d :: s' => Ascii.eqb c d && starts_with needle' s'
  | _ :: _, [] => false
  end.

(** s.find(needle): the first position at which [needle] occurs. *)
Fixpoint find0 (needle s : text) {struct s} : option nat :=
  if starts_with needle s then Some 0
  else match s with
       | [] => None
       | _ :: s' => option_map S (find0 needle s')
       end.

(** s.find(needle, pos): the first position not before [pos]; npos is
    [None]. *)
Definition find (needle s : text) (pos : nat) : option nat :=
  if List.length s <? pos then None
  else option_map (Nat.add pos) (find0 needle (skipn pos s)).

(** s.replace(pos, len, str); std::out_of_range when [pos] is past the
    end is [None]. *)
Definition replace (s : text) (pos len : nat) (str : text) : option text :=
  if List.length s <? pos then None
  else Some (firstn pos s ++ str ++ skipn (pos + len) s).

Inductive Loop :=
| finished (result : text)
| threw_out_of_range
| out_of_fuel.

(** while (true) {
      auto pos = result.find("static ", prelude_size);
      if (pos == std::string::npos) break;
      result.replace(pos, 6, "      "); } *)
Fixpoint force_non_static_loop (fuel : nat) (result : text)
  (prelude_size : nat) : Loop :=
  match fuel with
  | O => out_of_fuel
  | S fuel' =>
      match find static_ result prelude_size with
      | None => finished result
      | Some pos =>
          match replace result pos 6 six_spaces with
          | Some result' => force_non_static_loop fuel' result' prelude_size
          | None => threw_out_of_range
          end
      end
  end.

Definition force_non_static (result : text) (prelude_size : nat) : Loop :=
  force_non_static_loop (S (List.length result)) result prelude_size.

(** const auto new_data_size = std::filesystem::file_size(filename);
    result.resize(result.size() + new_data_size);
    file.read(result.data() + current_size, result.size());
    [read] stores characters until the count is reached or the file
    ends.  Storing past the end of the string is [None]. *)
Definition read_file (result file : text) (new_data_size : nat)
  : option text :=
  let current_size := List.length result in
  let resized := result ++ repeat NUL new_data_size in
  let count := List.length resized in
  let stored := Nat.min count (List.length file) in
  if new_data_size <? stored then None
  else Some (firstn current_size resized
             ++ firstn stored file
             ++ skipn (current_size + stored) resized).

(** Fixture::run_thunkgen_host after the generator has run: [result] is
    the fixed text of declarations, [file] the generated host module of
    which [file_size] reported [new_data_size] bytes. *)
Definition run_thunkgen_host_text (prelude result file : text)
  (new_data_size : nat) : option text :=
  let prelude_size := List.length result in
  match read_file result file new_data_size with
  | None => None
  | Some result' =>
      match force_non_static result' prelude_size with
      | finished result'' => Some (prelude ++ result'')
      | threw_out_of_range | out_of_fuel => None
      end
  end.

(** One character of the output against the input: kept or blanked. *)
Definition kept_or_blanked (c c' : ascii) : Prop := c' = c \/ c' = space.

End Harness.

(** ** Further concrete inputs *)

Module Samples.
Import Cxx.

(** enum C with underlying type int, and a generated wrapper that holds
    an [int32_t]. *)
Definition C : CType := Enum "C" int_t.

Definition guest_layout_C : Layout.GuestLayoutDef :=
  {| Layout.guest_data := Layout.FixedInt int_t |}.

(** [Call<passthrough, {}>] of
    [GuestWrapperForHostFunction<void(char*, int)>]. *)
Definition passthrough : Runtime.ParameterAnnotations :=
  {| Runtime.is_passthrough := true; Runtime.assume_compatible := false |}.

Definition plain_annotation : Runtime.ParameterAnnotations :=
  {| Runtime.is_passthrough := false; Runtime.assume_compatible := false |}.

(** A generated module text with two occurrences that overlap after the
    first replacement. *)
Definition staticstatic : Harness.text :=
  list_ascii_of_string "staticstatic int x;".

End Samples.

(** * Properties *)

Import Cxx.

(** ** Arithmetic of bit patterns *)

Section BitPatterns.
Import Cxx.
Local Open Scope Z_scope.

Lemma wrap_in_range (w v : Z) : 0 <= w -> in_range w (wrap w v).
Proof.
  intros Hw. unfold in_range, wrap.
  apply Z.mod_pos_bound. apply Z.pow_pos_nonneg; lia.
Qed.

Lemma wrap_small (w v : Z) : in_range w v -> wrap w v = v.
Proof. intros H. unfold wrap. apply Z.mod_small. exact H. Qed.

Lemma in_range_mono (w1 w2 v : Z) :
  0 <= w1 <= w2 -> in_range w1 v -> in_range w2 v.
Proof.
  unfold in_range. intros [H1 H2] [Hl Hu]. split; [exact Hl|].
  apply Z.lt_le_trans with (2 ^ w1); [exact Hu|].
  apply Z.pow_le_mono_r; lia.
Qed.

(** Conversion between integer types of one width keeps the bits,
    whatever the signedness. *)
Lemma convert_int_same_width (t : IntType) (v : Z) :
  in_range (int_bits t) v -> convert_int t (int_bits t) v = v.
Proof.
  intros H. unfold convert_int, value_of.
  destruct (signedness t).
  - destruct (v <? 2 ^ (int_bits t - 1)).
    + apply wrap_small, H.
    + unfold wrap.
      replace (v - 2 ^ int_bits t) with (v + (-1) * 2 ^ int_bits t) by lia.
      rewrite Z.mod_add by (apply Z.pow_nonzero;
                            destruct t as [s []]; cbn; lia).
      apply Z.mod_small, H.
  - apply wrap_small, H.
Qed.

Lemma convert_int_equal_width (t : IntType) (w v : Z) :
  int_bits t = w -> in_range w v -> convert_int t w v = v.
Proof. intros <- H. apply convert_int_same_width, H. Qed.

(** Zero extension keeps the value. *)
Lemma convert_unsigned_widen (t : IntType) (w v : Z) :
  signedness t = Unsigned -> 0 <= int_bits t <= w ->
  in_range (int_bits t) v -> convert_int t w v = v.
Proof.
  intros Hs Hw H. unfold convert_int. rewrite Hs. cbn.
  apply wrap_small. eapply in_range_mono; eauto.
Qed.

Lemma int_bits_size (t u : IntType) :
  int_bits t / 8 = int_bits u / 8 -> int_bits t = int_bits u.
Proof. destruct t as [s []], u as [s' []]; cbn; intros H; try reflexivity; discriminate H. Qed.

Lemma int_bits_bytes (t : IntType) : 8 * (int_bits t / 8) = int_bits t.
Proof. destruct t as [s []]; reflexivity. Qed.

End BitPatterns.

(** ** Guest pointer wrappers *)

Section GuestPointers.
Import Cxx.
Local Open Scope Z_scope.

Variable IS_32BIT_THUNK : bool.

Lemma guest_pointer_bits_cases :
  Layout.guest_pointer_bits IS_32BIT_THUNK
  = if IS_32BIT_THUNK then 32 else 64.
Proof. destruct IS_32BIT_THUNK; reflexivity. Qed.

Lemma guest_pointer_bits_bounds :
  0 <= Layout.guest_pointer_bits IS_32BIT_THUNK <= int_bits uintptr_t.
Proof. destruct IS_32BIT_THUNK; cbn; lia. Qed.

Lemma guest_pointer_type_unsigned :
  signedness (Layout.guest_pointer_type IS_32BIT_THUNK) = Unsigned.
Proof. destruct IS_32BIT_THUNK; reflexivity. Qed.

(** Storing a host address into the wrapper keeps its low bits. *)
Lemma store_address (p : Z) :
  convert_int uintptr_t (Layout.guest_pointer_bits IS_32BIT_THUNK) p
  = p mod 2 ^ (if IS_32BIT_THUNK then 32 else 64).
Proof. rewrite guest_pointer_bits_cases. reflexivity. Qed.

(** Reading the wrapper as a host address zero-extends it. *)
Lemma load_address (g : Layout.Object) :
  Layout.guest_pointer_ok IS_32BIT_THUNK g ->
  convert_int (Layout.guest_pointer_type IS_32BIT_THUNK) (int_bits uintptr_t)
    (Layout.data g) = Layout.data g.
Proof.
  intros H. apply convert_unsigned_widen.
  - apply guest_pointer_type_unsigned.
  - apply guest_pointer_bits_bounds.
  - exact H.
Qed.

Lemma stored_address_ok (p : Z) :
  Layout.guest_pointer_ok IS_32BIT_THUNK
    {| Layout.data :=
         convert_int uintptr_t (Layout.guest_pointer_bits IS_32BIT_THUNK) p |}.
Proof.
  unfold Layout.guest_pointer_ok, convert_int. cbn.
  apply wrap_in_range. apply guest_pointer_bits_bounds.
Qed.

End GuestPointers.

(** C7.  For every pointee type [T], [guest_layout<T*>] and
    [guest_layout<T* const>] have the single member [data], an unsigned
    integer whose width is the guest pointer width: 32 bits when
    IS_32BIT_THUNK is defined and 64 bits otherwise.  The member holds
    the low bits of the address stored into it, and every operation that
    produces a wrapper (the assignment from a function pointer and the
    conversion [to_guest] from a host pointer) yields a value of that
    width; [get_pointer] and the conversion to [host_layout] only read
    it. *)
Theorem guest_pointer_wrapper_invariant
  (IS_32BIT_THUNK : bool) (gen : Layout.Generated) (T : CType) :
  let w := (if IS_32BIT_THUNK then 32 else 64)%Z in
  let type := Layout.guest_pointer_type IS_32BIT_THUNK in
  (signedness type = Unsigned /\ int_bits type = w)
  /\ Layout.guest_layout IS_32BIT_THUNK gen (Pointer T)
     = WellFormed {| Layout.guest_data := Layout.FixedInt type |}
  /\ Layout.guest_layout IS_32BIT_THUNK gen (ConstPointer T)
     = WellFormed {| Layout.guest_data := Layout.FixedInt type |}
  /\ (forall self from,
        Layout.guest_layout_ptr_assign IS_32BIT_THUNK T self from
        = if is_function_v T
          then WellFormed {| Layout.data := (from mod 2 ^ w)%Z |}
          else IllFormed constraints_not_satisfied)
  /\ (forall from,
        is_function_v T = false ->
        Layout.to_guest_ptr IS_32BIT_THUNK T from
        = WellFormed {| Layout.data := (Layout.data from mod 2 ^ w)%Z |})
  /\ (forall self from g,
        Layout.guest_layout_ptr_assign IS_32BIT_THUNK T self from
        = WellFormed g ->
        Layout.guest_pointer_ok IS_32BIT_THUNK g)
  /\ (forall from g,
        Layout.to_guest_ptr IS_32BIT_THUNK T from = WellFormed g ->
        Layout.guest_pointer_ok IS_32BIT_THUNK g)
  /\ (forall g,
        Layout.guest_pointer_ok IS_32BIT_THUNK g ->
        Layout.get_pointer IS_32BIT_THUNK g = Layout.data g).
Proof.
  intros w type.
  split; [split; [apply guest_pointer_type_unsigned
                 | apply guest_pointer_bits_cases]|].
  split; [reflexivity|]. split; [reflexivity|].
  split; [|split; [|split; [|split]]].
  - intros self from. unfold Layout.guest_layout_ptr_assign.
    rewrite store_address. reflexivity.
  - intros from Hf. unfold Layout.to_guest_ptr, Layout.host_layout_ptr.
    rewrite Hf, store_address. reflexivity.
  - intros self from g. unfold Layout.guest_layout_ptr_assign.
    destruct (is_function_v T); [|discriminate].
    intros [= <-]. apply stored_address_ok.
  - intros from g. unfold Layout.to_guest_ptr, Layout.host_layout_ptr.
    destruct (is_function_v T); [discriminate|].
    cbn. intros [= <-]. apply stored_address_ok.
  - intros g Hg. apply load_address, Hg.
Qed.

(** ** The round trip of a guest pointer *)

(** C9, as stated, fails for a function pointee: [host_layout<T*>]
    asserts that [T] is not a function type, so for
    [T = int(char, char)] the expression
    [to_guest(host_layout<T*> { g })] is ill-formed and has no value. *)
Lemma round_trip_function_pointee :
  Layout.round_trip false Tests.int_char_char {| Layout.data := 4096 |}
  = IllFormed (static_assert_failed "Function types must be handled separately")
  /\ ~ (forall (IS_32BIT_THUNK : bool) (T : CType) (g : Layout.Object),
          Layout.guest_pointer_ok IS_32BIT_THUNK g ->
          exists g', Layout.round_trip IS_32BIT_THUNK T g = WellFormed g'
                     /\ Layout.data g' = Layout.data g).
Proof.
  split; [reflexivity|].
  intros H.
  destruct (H false Tests.int_char_char {| Layout.data := 4096 |})
    as [g' [Hg' _]].
  - unfold Layout.guest_pointer_ok, in_range. cbn. lia.
  - discriminate Hg'.
Qed.

(** C9, amended.  For every guest pointer wrapper [g] and every pointee
    type [T] that is not a function type, the round trip
    [to_guest(host_layout<T*> { g })] gives back [g]: the conversion to
    the host zero-extends and the conversion back truncates; for a
    function type [T] the round trip is ill-formed, because
    [host_layout<T*>] fails its static assertion.  Conversely [to_guest]
    of a host pointer [p] always succeeds and stores [p mod 2^w] for the
    guest pointer width [w], without a range check: with IS_32BIT_THUNK
    it keeps the low 32 bits of [p], so addresses that differ in their
    upper 32 bits only are stored alike. *)
Theorem guest_pointer_round_trip
  (IS_32BIT_THUNK : bool) (T : CType) (g : Layout.Object) :
  Layout.guest_pointer_ok IS_32BIT_THUNK g ->
  Layout.round_trip IS_32BIT_THUNK T g
  = (if is_function_v T
     then IllFormed
            (static_assert_failed "Function types must be handled separately")
     else WellFormed g)
  /\ (is_function_v T = false ->
      (forall h : Layout.Object,
         Layout.to_guest_ptr IS_32BIT_THUNK T h
         = WellFormed
             {| Layout.data :=
                  (Layout.data h
                   mod 2 ^ (if IS_32BIT_THUNK then 32 else 64))%Z |})
      /\ (forall p : Z,
            Layout.to_guest_ptr true T {| Layout.data := p |}
            = WellFormed {| Layout.data := Z.land p (Z.ones 32) |})
      /\ (forall p k : Z,
            Layout.to_guest_ptr true T
              {| Layout.data := (p + k * 2 ^ 32)%Z |}
            = Layout.to_guest_ptr true T {| Layout.data := p |})).
Proof.
  intros Hg.
  assert (Hto : is_function_v T = false ->
                forall b (h : Layout.Object),
                  Layout.to_guest_ptr b T h
                  = WellFormed
                      {| Layout.data :=
                           (Layout.data h mod 2 ^ (if b then 32 else 64))%Z |}).
  { intros Hf b h. unfold Layout.to_guest_ptr, Layout.host_layout_ptr.
    rewrite Hf. cbn [negb static_assert Cxx.bind].
    rewrite store_address. reflexivity. }
  split.
  - destruct (is_function_v T) eqn:Hf.
    + unfold Layout.round_trip, Layout.host_layout_ptr_ctor,
        Layout.host_layout_ptr.
      rewrite Hf. reflexivity.
    + assert (Hctor : Layout.host_layout_ptr_ctor IS_32BIT_THUNK T g
                      = WellFormed g).
      { unfold Layout.host_layout_ptr_ctor, Layout.host_layout_ptr.
        rewrite Hf. cbn [negb static_assert Cxx.bind].
        rewrite (load_address IS_32BIT_THUNK g Hg). destruct g; reflexivity. }
      unfold Layout.round_trip. rewrite Hctor. cbn [Cxx.bind].
      rewrite (Hto eq_refl), <- guest_pointer_bits_cases.
      change (Layout.data g
              mod 2 ^ Layout.guest_pointer_bits IS_32BIT_THUNK)%Z
        with (wrap (Layout.guest_pointer_bits IS_32BIT_THUNK)
                (Layout.data g)).
      rewrite (wrap_small _ _ Hg). destruct g; reflexivity.
  - intros Hf. split; [|split].
    + apply (Hto Hf).
    + intros p. rewrite (Hto Hf). cbn [Layout.data].
      rewrite Z.land_ones by lia. reflexivity.
    + intros p k. rewrite !(Hto Hf). cbn [Layout.data].
      rewrite Z.mod_add by lia. reflexivity.
Qed.

(** The round trip of the guest address 4096 of a [void*] on a 32-bit
    guest. *)
Lemma guest_pointer_round_trip_witness :
  Layout.guest_pointer_ok true {| Layout.data := 4096 |}
  /\ Layout.round_trip true Void {| Layout.data := 4096 |}
     = WellFormed {| Layout.data := 4096 |}.
Proof.
  assert (Hg : Layout.guest_pointer_ok true {| Layout.data := 4096 |}).
  { unfold Layout.guest_pointer_ok, in_range. cbn. lia. }
  split; [exact Hg|].
  exact (proj1 (guest_pointer_round_trip true Void
                  {| Layout.data := 4096 |} Hg)).
Defined.

(** ** Conversion of scalars from guest layout to host layout *)

Section ScalarConversion.
Local Open Scope Z_scope.

Lemma guest_object_ok_fixed (t : IntType) (T : CType) (from : Layout.Object) :
  Layout.guest_object_ok {| Layout.guest_data := Layout.FixedInt t |} T from ->
  in_range (int_bits t) (Layout.data from).
Proof.
  unfold Layout.guest_object_ok, Layout.sizeof_guest.
  cbn [Layout.guest_data sizeof].
  rewrite int_bits_bytes. auto.
Qed.

Lemma represents_all_equal_width (t d : IntType) (v : Z) :
  represents_all t d = true -> int_bits d = int_bits t ->
  in_range (int_bits t) v -> convert_int t (int_bits d) v = v.
Proof.
  intros _ Hw Hv. rewrite Hw. apply convert_int_same_width, Hv.
Qed.

(** Constructor of the primary template, non-enum case: it compiles
    only when the sizes agree, and then copies the bits. *)
Lemma host_layout_ctor_non_enum (gl : Layout.GuestLayoutDef) (T : CType)
  (from h : Layout.Object) :
  is_scalar_non_pointer T = true -> is_enum_v T = false ->
  Layout.guest_object_ok gl T from ->
  Layout.host_layout_ctor_from gl T from = WellFormed h ->
  sizeof T = Layout.sizeof_guest gl T /\ Layout.data h = Layout.data from.
Proof.
  intros Hs He Hok.
  destruct gl as [[|t|ms]]; destruct T; try discriminate;
    unfold Layout.host_layout_ctor_from, Layout.sizeof_guest; cbn;
    try discriminate.
  - intros [= <-]. split; reflexivity.
  - rewrite Z.eqb_refl. cbn. intros [= <-]. split; reflexivity.
  - rewrite Z.eqb_refl. cbn. intros [= <-]. split; reflexivity.
  - destruct (represents_all t t0) eqn:Hr; [|discriminate]. cbn.
    destruct (int_bits t0 / 8 =? int_bits t / 8) eqn:Hsz; [|discriminate].
    cbn. intros [= <-]. apply Z.eqb_eq in Hsz.
    split; [rewrite Hsz; reflexivity|]. cbn.
    apply represents_all_equal_width; [exact Hr| |].
    + apply int_bits_size, Hsz.
    + eapply guest_object_ok_fixed, Hok.
Qed.

(** The same constructor on the [guest_layout<T>] of the primary
    template always compiles. *)
Lemma host_layout_ctor_primary (T : CType) (from : Layout.Object) :
  is_scalar_non_pointer T = true -> is_enum_v T = false ->
  Layout.host_layout_ctor_from {| Layout.guest_data := Layout.HostType |} T from
  = WellFormed from.
Proof.
  intros Hs He. destruct from as [v].
  destruct T; try discriminate;
    unfold Layout.host_layout_ctor_from, Layout.sizeof_guest; cbn;
    rewrite ?Z.eqb_refl; reflexivity.
Qed.

(** Enum case: no assertion; the member is the cast of [from.data], and
    the cast keeps the bits when the sizes agree. *)
Lemma host_layout_ctor_enum (gl : Layout.GuestLayoutDef) (name : string)
  (u : IntType) (from : Layout.Object) :
  Layout.host_layout_ctor_from gl (Enum name u) from
  = Cxx.bind (Layout.static_cast_enum (Layout.guest_data gl) u
                (Layout.data from))
      (fun v => WellFormed {| Layout.data := v |}).
Proof. reflexivity. Qed.

Lemma static_cast_enum_equal_size (gl : Layout.GuestLayoutDef)
  (name : string) (u : IntType) (from : Layout.Object) :
  Layout.guest_object_ok gl (Enum name u) from ->
  sizeof (Enum name u) = Layout.sizeof_guest gl (Enum name u) ->
  Layout.static_cast_enum (Layout.guest_data gl) u (Layout.data from)
  = WellFormed (Layout.data from).
Proof.
  intros Hok Hsz. destruct gl as [[|t|ms]].
  - reflexivity.
  - assert (Hw : int_bits t = int_bits u).
    { apply int_bits_size. unfold Layout.sizeof_guest in Hsz.
      cbn [Layout.guest_data sizeof] in Hsz.
      injection Hsz as Hsz. symmetry. exact Hsz. }
    cbn [Layout.static_cast_enum Layout.guest_data]. f_equal.
    apply convert_int_equal_width; [exact Hw|].
    rewrite <- Hw. eapply guest_object_ok_fixed, Hok.
  - discriminate Hsz.
Qed.

End ScalarConversion.

(** C10, as stated, fails for enum types: the enum constructor of
    [host_layout] has no size assertion.  For [enum L : long] and a
    wrapper that holds a 32-bit integer (four bytes against eight) the
    construction is defined, and it sign-extends the stored bits. *)
Lemma enum_conversion_has_no_size_check :
  Layout.host_layout_ctor_from Examples.guest_layout_L Examples.L
    {| Layout.data := 4294967295 |}
  = WellFormed {| Layout.data := 18446744073709551615 |}
  /\ sizeof Examples.L = Some 8%Z
  /\ Layout.sizeof_guest Examples.guest_layout_L Examples.L = Some 4%Z
  /\ ~ (forall (gl : Layout.GuestLayoutDef) (T : CType)
               (from h : Layout.Object),
          is_scalar_non_pointer T = true ->
          Layout.guest_object_ok gl T from ->
          Layout.host_layout_ctor_from gl T from = WellFormed h ->
          sizeof T = Layout.sizeof_guest gl T
          /\ Layout.data h = Layout.data from).
Proof.
  split; [reflexivity|]. split; [reflexivity|]. split; [reflexivity|].
  intros H.
  destruct (H Examples.guest_layout_L Examples.L
              {| Layout.data := 4294967295 |}
              {| Layout.data := 18446744073709551615 |} eq_refl)
    as [Hsz _].
  - unfold Layout.guest_object_ok, in_range. cbn. lia.
  - reflexivity.
  - discriminate Hsz.
Qed.

(** C10, amended.  For every scalar type [T] that is not a class, a
    union or a pointer, and every [guest_layout<T>] (declared as [gl])
    holding a value of its type: when [T] is not an enum,
    [host_layout<T>] is constructible from it only when [sizeof] agrees
    on the two sides (the static assertion fails otherwise), the
    resulting [data] equals [from.data], and on the [guest_layout] of the
    primary template the construction always succeeds.  When [T] is an
    enum there is no size assertion: the construction is defined for
    every integer member, of whatever size, and the resulting [data] is
    [static_cast<T>(from.data)].  With sizes equal the conversion leaves
    the stored bits as they are in either case. *)
Theorem host_layout_scalar_conversion
  (gl : Layout.GuestLayoutDef) (T : CType) (from : Layout.Object) :
  is_scalar_non_pointer T = true ->
  Layout.guest_object_ok gl T from ->
  (is_enum_v T = false ->
     (forall h, Layout.host_layout_ctor_from gl T from = WellFormed h ->
                sizeof T = Layout.sizeof_guest gl T
                /\ Layout.data h = Layout.data from)
     /\ (sizeof T <> Layout.sizeof_guest gl T ->
         compiles (Layout.host_layout_ctor_from gl T from) = false)
     /\ Layout.host_layout_ctor_from
          {| Layout.guest_data := Layout.HostType |} T from
        = WellFormed from)
  /\ (forall u, Layout.underlying_type_t T = Some u ->
        Layout.host_layout_ctor_from gl T from
        = Cxx.bind (Layout.static_cast_enum (Layout.guest_data gl) u
                      (Layout.data from))
            (fun v => WellFormed {| Layout.data := v |}))
  /\ (forall u t, Layout.underlying_type_t T = Some u ->
        Layout.guest_data gl = Layout.FixedInt t ->
        Layout.host_layout_ctor_from gl T from
        = WellFormed
            {| Layout.data := convert_int t (int_bits u) (Layout.data from) |})
  /\ (sizeof T = Layout.sizeof_guest gl T ->
      forall h, Layout.host_layout_ctor_from gl T from = WellFormed h ->
                Layout.data h = Layout.data from)
  /\ (is_enum_v T = true -> sizeof T = Layout.sizeof_guest gl T ->
      Layout.host_layout_ctor_from gl T from = WellFormed from).
Proof.
  intros Hs Hok. split; [|split; [|split; [|split]]].
  - intros He. split; [|split].
    + intros h Hh. eapply host_layout_ctor_non_enum; eauto.
    + intros Hne.
      destruct (Layout.host_layout_ctor_from gl T from) as [h|d] eqn:Hc;
        [|reflexivity].
      exfalso. apply Hne.
      eapply host_layout_ctor_non_enum in Hc; eauto. apply Hc.
    + apply host_layout_ctor_primary; assumption.
  - intros u Hu. destruct T; try discriminate Hu.
    injection Hu as <-. apply host_layout_ctor_enum.
  - intros u t Hu Ht. destruct T; try discriminate Hu.
    injection Hu as <-. rewrite host_layout_ctor_enum, Ht. reflexivity.
  - intros Hsz h Hh. destruct (is_enum_v T) eqn:He.
    + destruct T; try discriminate He.
      rewrite host_layout_ctor_enum in Hh.
      rewrite (static_cast_enum_equal_size gl name underlying from Hok Hsz)
        in Hh.
      cbn in Hh. injection Hh as <-. reflexivity.
    + eapply host_layout_ctor_non_enum in Hh; eauto. apply Hh.
  - intros He Hsz. destruct T; try discriminate He.
    rewrite host_layout_ctor_enum.
    rewrite (static_cast_enum_equal_size gl name underlying from Hok Hsz).
    destruct from; reflexivity.
Qed.

(** The conversion of the value 255 of [enum E : unsigned char] from a
    wrapper that holds a [uint8_t]. *)
Lemma host_layout_scalar_conversion_witness :
  is_scalar_non_pointer Examples.E = true
  /\ Layout.guest_object_ok
       {| Layout.guest_data := Layout.FixedInt uint8_t |} Examples.E
       {| Layout.data := 255 |}
  /\ Layout.host_layout_ctor_from
       {| Layout.guest_data := Layout.FixedInt uint8_t |} Examples.E
       {| Layout.data := 255 |}
     = WellFormed {| Layout.data := 255 |}.
Proof.
  assert (Hok : Layout.guest_object_ok
                  {| Layout.guest_data := Layout.FixedInt uint8_t |}
                  Examples.E {| Layout.data := 255 |}).
  { unfold Layout.guest_object_ok, in_range. cbn. lia. }
  split; [reflexivity|]. split; [exact Hok|].
  apply (host_layout_scalar_conversion
           {| Layout.guest_data := Layout.FixedInt uint8_t |} Examples.E
           {| Layout.data := 255 |} eq_refl Hok); reflexivity.
Defined.

(** ** Types without layout wrappers *)

(** C3, as stated, fails for enum types on the host side: the primary
    [host_layout] template asserts that its argument is no class, no
    union and not void, but it accepts an enum and has a constructor for
    it. *)
Lemma generic_host_layout_accepts_enum :
  Layout.host_layout_primary Examples.E
  = WellFormed {| Layout.host_data := Examples.E |}
  /\ ~ (forall T : CType,
          is_class_v T || is_union_v T || is_enum_v T = true ->
          compiles (Layout.guest_layout_primary T) = false
          /\ compiles (Layout.host_layout_primary T) = false).
Proof.
  split; [reflexivity|].
  intros H. destruct (H Examples.E eq_refl) as [_ Hh]. discriminate Hh.
Qed.

(** C3, amended.  For an aggregate [A] (a class or a union) classified
    Incompatible without an override annotation, the generated module
    declares [guest_layout<A>] and [host_layout<A>] without defining
    them, so that using either is an error, and the [to_guest] overload
    for [host_layout<A>] is deleted.  Instantiating the primary
    [guest_layout] template with a class, union or enum type, or the
    primary [host_layout] template with a class or union type, fails a
    static assertion; the primary [host_layout] template accepts enum
    types. *)
Theorem incompatible_type_has_no_layout
  (IS_32BIT_THUNK is_union : bool) (name : string)
  (members : list (string * CType)) :
  let A := if is_union then Union name else Class name in
  let emitted := Generator.layout_wrappers Generator.Incompatible false A members in
  let gen := Generator.generated_for name emitted in
  (option_map Generator.guest_wrapper emitted = Some Layout.DeclaredOnly
   /\ option_map Generator.host_wrapper emitted = Some Layout.DeclaredOnly
   /\ option_map Generator.to_guest_wrapper emitted = Some Layout.Deleted)
  /\ Layout.guest_layout IS_32BIT_THUNK gen A = IllFormed incomplete_type
  /\ Layout.host_layout gen A = IllFormed incomplete_type
  /\ Layout.to_guest_selected gen A = IllFormed deleted_function
  /\ (forall T : CType,
        is_class_v T || is_union_v T || is_enum_v T = true ->
        exists message,
          Layout.guest_layout_primary T
          = IllFormed (static_assert_failed message)
          /\ Layout.guest_layout IS_32BIT_THUNK Layout.header_only T
             = IllFormed (static_assert_failed message))
  /\ (forall T : CType,
        is_class_v T || is_union_v T = true ->
        exists message,
          Layout.host_layout_primary T
          = IllFormed (static_assert_failed message)
          /\ Layout.host_layout Layout.header_only T
             = IllFormed (static_assert_failed message))
  /\ (forall T : CType,
        is_enum_v T = true ->
        Layout.host_layout_primary T = WellFormed {| Layout.host_data := T |}
        /\ Layout.host_layout Layout.header_only T
           = WellFormed {| Layout.host_data := T |}).
Proof.
  intros A emitted gen.
  split; [repeat split|].
  split; [|split; [|split]].
  - destruct is_union; cbn; rewrite String.eqb_refl; reflexivity.
  - destruct is_union; cbn; rewrite String.eqb_refl; reflexivity.
  - destruct is_union; cbn; rewrite String.eqb_refl; reflexivity.
  - split; [|split].
    + intros T HT. destruct T; try discriminate HT; eexists; split; reflexivity.
    + intros T HT. destruct T; try discriminate HT; eexists; split; reflexivity.
    + intros T HT. destruct T; try discriminate HT. split; reflexivity.
Qed.

(** ** The unpacker of callbacks into host functions *)

Section CallArity.

Lemma cb_member_allowed (n : nat) :
  n <= 18 \/ n = 23 -> Callback.cb_member n = Some n.
Proof.
  intros [H | ->]; [|reflexivity].
  do 19 (destruct n as [|n]; [reflexivity|]). lia.
Qed.

Lemma arity_check (n : nat) :
  (n <=? 18) || (n =? 23) = true <-> n <= 18 \/ n = 23.
Proof.
  rewrite Bool.orb_true_iff, Nat.leb_le, Nat.eqb_eq. reflexivity.
Qed.

Lemma last_slot {A B} (f : A -> B) (xs : list A) (y : B) :
  nth_error (map f xs ++ [y]) (List.length xs) = Some y.
Proof.
  rewrite nth_error_app2 by (rewrite length_map; lia).
  rewrite length_map, Nat.sub_diag. reflexivity.
Qed.

(** The head of [Call] on packs that pass both assertions. *)
Lemma Call_allowed (Annotations : list Runtime.ParameterAnnotations)
  (Result : CType) (Args : list CType) :
  List.length Annotations = List.length Args ->
  List.length Args <= 18 \/ List.length Args = 23 ->
  exists params,
    Callback.Call_prologue Annotations Result Args
    = WellFormed
        {| Callback.record_slots :=
             map Callback.guest_layout_of Args
             ++ [Callback.plain (Integer uintptr_t)];
           Callback.cb_index := Some (List.length Args);
           Callback.cb_slot := Some (Callback.plain (Integer uintptr_t));
           Callback.callback_params := params |}.
Proof.
  intros Hlen Hn. unfold Callback.Call_prologue.
  rewrite Hlen, Nat.eqb_refl. cbn [static_assert Cxx.bind].
  rewrite (proj2 (arity_check _) Hn). cbn [static_assert Cxx.bind].
  rewrite (cb_member_allowed _ Hn).
  unfold Runtime.field. rewrite last_slot. cbn [Cxx.bind].
  eexists. reflexivity.
Qed.

Lemma Call_prologue_compiles
  (Annotations : list Runtime.ParameterAnnotations) (Result : CType)
  (Args : list CType) :
  compiles (Callback.Call_prologue Annotations Result Args) = true
  <-> List.length Annotations = List.length Args
      /\ (List.length Args <= 18 \/ List.length Args = 23).
Proof.
  split.
  - unfold Callback.Call_prologue.
    destruct (List.length Annotations =? List.length Args) eqn:Hlen;
      [|discriminate].
    cbn [static_assert Cxx.bind].
    destruct ((List.length Args <=? 18) || (List.length Args =? 23)) eqn:Hn;
      [|discriminate].
    intros _. split; [apply Nat.eqb_eq, Hlen | apply arity_check, Hn].
  - intros [Hlen Hn].
    destruct (Call_allowed Annotations Result Args Hlen Hn) as [ps Hc].
    rewrite Hc. reflexivity.
Qed.

Section WholeCall.

Variable IS_32BIT_THUNK : bool.
Variable gen : Layout.Generated.
Variable generated_ctor :
  string -> Layout.Object -> Instantiation Layout.Object.

Lemma guest_layouts_compile (Args : list CType) :
  compiles (Conversion.guest_layouts IS_32BIT_THUNK gen Args) = true
  <-> Forall (fun T => compiles (Layout.guest_layout IS_32BIT_THUNK gen T)
                       = true) Args.
Proof.
  induction Args as [|T Args IH]; cbn [Conversion.guest_layouts].
  - split; [constructor | reflexivity].
  - destruct (Layout.guest_layout IS_32BIT_THUNK gen T) as [gl|d] eqn:HT;
      cbn [Cxx.bind].
    + destruct (Conversion.guest_layouts IS_32BIT_THUNK gen Args) as [gls|d'];
        cbn [Cxx.bind compiles] in *.
      * split; [|reflexivity]. intros _. constructor.
        -- rewrite HT. reflexivity.
        -- apply IH. reflexivity.
      * split; [discriminate|]. intros H. inversion H as [|? ? _ Hrest].
        apply IH, Hrest.
    + split; [discriminate|]. intros H. inversion H as [|? ? Hhead _].
      rewrite HT in Hhead. discriminate Hhead.
Qed.

Lemma Projections_compile
  (triplets : list (Runtime.ParameterAnnotations * (CType * Layout.Object))) :
  compiles (Conversion.Projections IS_32BIT_THUNK gen generated_ctor triplets)
  = true
  <-> Forall (fun t =>
                compiles (Conversion.Projection IS_32BIT_THUNK gen
                            generated_ctor (fst t) (fst (snd t)) (snd (snd t)))
                = true) triplets.
Proof.
  induction triplets as [|[ann [T x]] rest IH];
    cbn [Conversion.Projections].
  - split; [constructor | reflexivity].
  - destruct (Conversion.Projection IS_32BIT_THUNK gen generated_ctor ann T x)
      as [p|d] eqn:Hp; cbn [Cxx.bind].
    + destruct (Conversion.Projections IS_32BIT_THUNK gen generated_ctor rest)
        as [ps|d']; cbn [Cxx.bind compiles] in *.
      * split; [|reflexivity]. intros _. constructor.
        -- cbn [fst snd]. rewrite Hp. reflexivity.
        -- apply IH. reflexivity.
      * split; [discriminate|]. intros H. inversion H as [|? ? _ Hrest].
        apply IH, Hrest.
    + split; [discriminate|]. intros H. inversion H as [|? ? Hhead _].
      cbn [fst snd] in Hhead. rewrite Hp in Hhead. discriminate Hhead.
Qed.

(** [Call] compiles when its head, the wrapper types and the projections
    do; its first component is what the head fixes. *)
Lemma Call_parts (Annotations : list Runtime.ParameterAnnotations)
  (Result : CType) (Args : list CType) (args : list Layout.Object)
  (target : Z) :
  let call := Conversion.Call IS_32BIT_THUNK gen generated_ctor Annotations
                Result Args args target in
  (compiles call = true
   <-> compiles (Callback.Call_prologue Annotations Result Args) = true
       /\ compiles (Conversion.guest_layouts IS_32BIT_THUNK gen Args) = true
       /\ compiles (Conversion.Projections IS_32BIT_THUNK gen generated_ctor
                      (combine Annotations (combine Args args))) = true)
  /\ (forall inst ps,
        call = WellFormed (inst, ps) ->
        Callback.Call_prologue Annotations Result Args = WellFormed inst).
Proof.
  intros call. subst call. unfold Conversion.Call, Conversion.Call_f.
  destruct (Callback.Call_prologue Annotations Result Args) as [inst0|d0];
    cbn [Cxx.bind compiles].
  - destruct (Conversion.guest_layouts IS_32BIT_THUNK gen Args) as [gls|d1];
      cbn [Cxx.bind compiles].
    + destruct (Conversion.Projections IS_32BIT_THUNK gen generated_ctor
                  (combine Annotations (combine Args args))) as [ps0|d2];
        cbn [Cxx.bind compiles].
      * split; [tauto|]. intros inst ps [= <- _]. reflexivity.
      * split; [|intros inst ps H; discriminate H].
        split; [discriminate | intros (_ & _ & H); exact H].
    + split; [|intros inst ps H; discriminate H].
      split; [discriminate | intros (_ & H & _); exact H].
  - split; [|intros inst ps H; discriminate H].
    split; [discriminate | intros (H & _); exact H].
Qed.

End WholeCall.

End CallArity.

(** C2, as stated, fails for packs within the bound: with one argument,
    [Call<>] of [GuestWrapperForHostFunction<void(int)>] does not
    compile, because [Call] first asserts
    [sizeof...(Annotations) == sizeof...(Args)]; and [Call<{}>] of
    [GuestWrapperForHostFunction<void(funcptr)>], where funcptr is a
    pointer to int(char, char), has as many annotations as arguments and
    does not compile either, because its lambda projects the function
    pointer through [host_layout], which asserts "Function types must be
    handled separately". *)
Lemma Call_fails_within_allowed_arity :
  Conversion.Call false Layout.header_only
    (fun _ _ => IllFormed incomplete_type) [] Void [Tests.int_type]
    [{| Layout.data := 0 |}] 0
  = IllFormed
      (static_assert_failed "sizeof...(Annotations) == sizeof...(Args)")
  /\ Conversion.Call false Layout.header_only
       (fun _ _ => IllFormed incomplete_type) [Samples.plain_annotation]
       Void [Pointer Tests.int_char_char] [{| Layout.data := 4096 |}] 0
     = IllFormed
         (static_assert_failed "Function types must be handled separately")
  /\ ~ (forall (IS_32BIT_THUNK : bool) (gen : Layout.Generated)
               (generated_ctor :
                  string -> Layout.Object -> Instantiation Layout.Object)
               (Annotations : list Runtime.ParameterAnnotations)
               (Result : CType) (Args : list CType)
               (args : list Layout.Object) (target : Z),
          is_function_v Result = false ->
          List.length args = List.length Args ->
          (compiles (Conversion.Call IS_32BIT_THUNK gen generated_ctor
                       Annotations Result Args args target) = true
           <-> (List.length Args <= 18 \/ List.length Args = 23))).
Proof.
  split; [reflexivity|]. split; [reflexivity|].
  intros H.
  assert (Hc : compiles
                 (Conversion.Call false Layout.header_only
                    (fun _ _ => IllFormed incomplete_type)
                    [Samples.plain_annotation] Void
                    [Pointer Tests.int_char_char]
                    [{| Layout.data := 4096 |}] 0) = true).
  { apply H; [reflexivity | reflexivity |]. left. cbn. lia. }
  discriminate Hc.
Qed.

(** C2, amended.  [GuestWrapperForHostFunction<Result(Args...)>::Call]
    with annotations [Annotations...] compiles exactly when there are as
    many annotations as arguments, the number of arguments [n] is at
    most 18 or equal to 23, [guest_layout<Args_i>] is complete for every
    argument, and [Projection<Annotations_i, Args_i>] compiles for every
    argument.  For every [n] outside {0, ..., 18, 23} compilation fails.
    When [Call] compiles, the callback target is read from member [a<n>]
    of the packed record, the [uintptr_t] slot that follows the [n]
    argument slots and is the last one.  ([Result(Args...)] is a
    function type, so [Result] is none; the record has one argument
    member per argument.) *)
Theorem Call_well_formed
  (IS_32BIT_THUNK : bool) (gen : Layout.Generated)
  (generated_ctor : string -> Layout.Object -> Instantiation Layout.Object)
  (Annotations : list Runtime.ParameterAnnotations) (Result : CType)
  (Args : list CType) (args : list Layout.Object) (target : Z) :
  let n := List.length Args in
  let call := Conversion.Call IS_32BIT_THUNK gen generated_ctor Annotations
                Result Args args target in
  is_function_v Result = false ->
  List.length args = n ->
  (compiles call = true
   <-> List.length Annotations = n
       /\ (n <= 18 \/ n = 23)
       /\ Forall (fun T => compiles (Layout.guest_layout IS_32BIT_THUNK gen T)
                           = true) Args
       /\ Forall (fun t =>
                    compiles (Conversion.Projection IS_32BIT_THUNK gen
                                generated_ctor (fst t) (fst (snd t))
                                (snd (snd t))) = true)
                 (combine Annotations (combine Args args)))
  /\ (~ (n <= 18 \/ n = 23) -> compiles call = false)
  /\ (forall inst ps,
        call = WellFormed (inst, ps) ->
        Callback.cb_index inst = Some n
        /\ Callback.cb_slot inst = Some (Callback.plain (Integer uintptr_t))
        /\ Callback.record_slots inst
           = map Callback.guest_layout_of Args
             ++ [Callback.plain (Integer uintptr_t)]
        /\ List.length (Callback.record_slots inst) = n + 1
        /\ (forall record : Runtime.PackedArguments,
              Callback.read_cb inst record
              = nth_error (Runtime.a record) n)).
Proof.
  intros n call HResult Hargs.
  destruct (Call_parts IS_32BIT_THUNK gen generated_ctor Annotations Result
              Args args target) as [Hparts Hhead].
  fold call in Hparts, Hhead.
  assert (Hiff : compiles call = true
                 <-> List.length Annotations = n
                     /\ (n <= 18 \/ n = 23)
                     /\ Forall (fun T =>
                                  compiles (Layout.guest_layout IS_32BIT_THUNK
                                              gen T) = true) Args
                     /\ Forall (fun t =>
                                  compiles
                                    (Conversion.Projection IS_32BIT_THUNK gen
                                       generated_ctor (fst t) (fst (snd t))
                                       (snd (snd t))) = true)
                               (combine Annotations (combine Args args))).
  { rewrite Hparts, Call_prologue_compiles, guest_layouts_compile,
      Projections_compile. fold n. tauto. }
  split; [exact Hiff|]. split.
  - intros Hn. destruct (compiles call) eqn:Hc; [|reflexivity].
    exfalso. apply Hn. apply Hiff. reflexivity.
  - intros inst ps Hcall.
    assert (Hc : compiles call = true) by (rewrite Hcall; reflexivity).
    apply Hiff in Hc. destruct Hc as (Hlen & Hn & _).
    apply Hhead in Hcall.
    destruct (Call_allowed Annotations Result Args Hlen Hn) as [params Hc].
    rewrite Hc in Hcall. injection Hcall as <-.
    cbn [Callback.cb_index Callback.cb_slot Callback.record_slots].
    split; [reflexivity|]. split; [reflexivity|]. split; [reflexivity|].
    split; [|reflexivity].
    rewrite length_app, length_map. reflexivity.
Qed.

(** [Call<passthrough, {}>] of
    [GuestWrapperForHostFunction<void(funcptr, int* p)>], where funcptr
    is a pointer to int(char, char), compiles in a 32-bit thunk
    library. *)
Lemma Call_well_formed_witness :
  compiles
    (Conversion.Call true Layout.header_only
       (fun _ _ => IllFormed incomplete_type)
       [Samples.passthrough; Samples.plain_annotation] Void
       [Pointer Tests.int_char_char; Pointer Tests.int_type]
       [{| Layout.data := 4096 |}; {| Layout.data := 8192 |}] 23) = true.
Proof.
  refine (proj2 (proj1 (Call_well_formed true Layout.header_only
                          (fun _ _ => IllFormed incomplete_type)
                          [Samples.passthrough; Samples.plain_annotation] Void
                          [Pointer Tests.int_char_char; Pointer Tests.int_type]
                          [{| Layout.data := 4096 |}; {| Layout.data := 8192 |}]
                          23 eq_refl eq_refl)) _).
  split; [reflexivity|]. split; [left; cbn; lia|].
  split; repeat constructor.
Defined.

(** ** Host-to-guest trampolines *)

Section Trampolines.
Import Runtime.

Lemma call_CallCallback_known (env : Environment) (fn unpacker target : Z)
  (argsrv : PackedArguments) f :
  code_at env fn = Some f ->
  Callback.call_CallCallback env fn unpacker target argsrv
  = Returns [called_CallCallback fn unpacker target argsrv]
            (f unpacker target argsrv).
Proof. intros H. unfold Callback.call_CallCallback. rewrite H. reflexivity. Qed.

Lemma deref_known (env : Environment) (p : Z) (info : GuestcallInfo) :
  guestcall_at env p = Some info -> Callback.deref env p = ret info.
Proof. intros H. unfold Callback.deref. rewrite H. reflexivity. Qed.

(** The body of [CallGuestPtr] once the hidden register is known. *)
Lemma CallGuestPtr_body (arch : HostArch) (hidden : Register)
  (Result : CType) (Args : list CType) (env : Environment) (args : list Z)
  (info : GuestcallInfo) f :
  Callback.LOAD_INTERNAL_GUESTPTR_VIA_CUSTOM_ABI arch = WellFormed hidden ->
  guestcall_at env (registers env hidden) = Some info ->
  code_at env (CallCallback info) = Some f ->
  let packed_args := {| rv := 0; a := args |} in
  Callback.CallGuestPtr arch Result Args env args
  = WellFormed
      (Returns
         [called_CallCallback (CallCallback info) (GuestUnpacker info)
            (GuestTarget info) packed_args]
         (if is_void_v Result then None
          else Some (rv (f (GuestUnpacker info) (GuestTarget info)
                           packed_args)))).
Proof.
  intros Hload Hinfo Hcode packed_args.
  unfold Callback.CallGuestPtr. rewrite Hload. cbn [Cxx.bind].
  rewrite (deref_known _ _ _ Hinfo). unfold ret at 1. cbn [seq].
  rewrite (call_CallCallback_known _ _ _ _ _ _ Hcode).
  destruct (is_void_v Result); reflexivity.
Qed.

End Trampolines.

(** C6.  [CallbackUnpack<Result(Args...)>::CallGuestPtr], called with
    native arguments on a host whose hidden register ([r11] on x86-64,
    [x11] on AArch64) points to a [GuestcallInfo], packs the arguments
    into a local [PackedArguments<Result, Args...>], calls
    [CallCallback(GuestUnpacker, GuestTarget, &packed_args)] once and
    makes no other call, and returns [packed_args.rv] as the callee left
    it when [Result] is not void, and no value when it is. *)
Theorem CallGuestPtr_protocol
  (arch : Runtime.HostArch) (Result : CType) (Args : list CType)
  (env : Runtime.Environment) (args : list Z)
  (info : Runtime.GuestcallInfo)
  (f : Z -> Z -> Runtime.PackedArguments -> Runtime.PackedArguments) :
  let hidden :=
    match arch with Runtime.M_ARM_64 => Runtime.x11 | _ => Runtime.r11 end in
  let packed_args := {| Runtime.rv := 0; Runtime.a := args |} in
  arch = Runtime.M_X86_64 \/ arch = Runtime.M_ARM_64 ->
  Runtime.guestcall_at env (Runtime.registers env hidden) = Some info ->
  Runtime.code_at env (Runtime.CallCallback info) = Some f ->
  Callback.LOAD_INTERNAL_GUESTPTR_VIA_CUSTOM_ABI arch = WellFormed hidden
  /\ exists result,
       Callback.CallGuestPtr arch Result Args env args
       = WellFormed
           (Runtime.Returns
              [Runtime.called_CallCallback (Runtime.CallCallback info)
                 (Runtime.GuestUnpacker info) (Runtime.GuestTarget info)
                 packed_args]
              result)
       /\ (is_void_v Result = false ->
           result = Some (Runtime.rv (f (Runtime.GuestUnpacker info)
                                        (Runtime.GuestTarget info)
                                        packed_args)))
       /\ (is_void_v Result = true -> result = None)
       /\ (result <> None <-> is_void_v Result = false).
Proof.
  intros hidden packed_args Harch Hinfo Hcode.
  assert (Hload : Callback.LOAD_INTERNAL_GUESTPTR_VIA_CUSTOM_ABI arch
                  = WellFormed hidden)
    by (destruct Harch as [-> | ->]; reflexivity).
  split; [exact Hload|].
  eexists. split.
  - apply (CallGuestPtr_body arch hidden Result Args env args info f
             Hload Hinfo Hcode).
  - destruct (is_void_v Result); repeat split;
      intros; try reflexivity; try discriminate; congruence.
Qed.

(** A trampoline for [int(char, char)] on AArch64, called with the
    arguments 97 and 98. *)
Lemma CallGuestPtr_protocol_witness :
  Callback.CallGuestPtr Runtime.M_ARM_64 Tests.int_type
    [Tests.char_type; Tests.char_type] Examples.with_emulator [97; 98]%Z
  = WellFormed
      (Runtime.Returns
         [Runtime.called_CallCallback 8192 100 23
            {| Runtime.rv := 0; Runtime.a := [97; 98]%Z |}]
         (Some 123%Z)).
Proof.
  destruct (CallGuestPtr_protocol Runtime.M_ARM_64 Tests.int_type
              [Tests.char_type; Tests.char_type] Examples.with_emulator
              [97; 98]%Z Examples.guestcall
              (fun unpacker target argsrv =>
                 {| Runtime.rv := (unpacker + target)%Z;
                    Runtime.a := Runtime.a argsrv |})
              (or_intror eq_refl) eq_refl eq_refl)
    as [_ [result [Hcall [Hrv _]]]].
  rewrite Hcall, (Hrv eq_refl). reflexivity.
Defined.

(** ** Calls through the weak emulator symbols *)

(** C8, as stated, fails: the helpers of the header test nothing before
    they call the weak symbols.  In a library loaded without the
    emulator both symbols are null, and
    [MakeHostTrampolineForGuestFunctionAt] and
    [FinalizeHostTrampolineForGuestFunction] call through them. *)
Lemma helpers_call_null_weak_symbol :
  Callback.MakeHostTrampolineForGuestFunctionAt Tests.int_char_char
    Examples.without_emulator 4096 8192
  = WellFormed
      (Runtime.Crashes []
         (Runtime.null_call "FEXCore::MakeHostTrampolineForGuestFunction"))
  /\ Callback.FinalizeHostTrampolineForGuestFunction_guest Tests.int_char_char
       Examples.without_emulator {| Layout.data := 4096 |}
     = WellFormed
         (Runtime.Crashes []
            (Runtime.null_call
               "FEXCore::FinalizeHostTrampolineForGuestFunction"))
  /\ ~ (forall (F : CType) (env : Runtime.Environment) (target unpacker : Z)
               (run : Runtime.Outcome Z),
          Callback.MakeHostTrampolineForGuestFunctionAt F env target unpacker
          = WellFormed run ->
          forall trace symbol,
            run <> Runtime.Crashes trace (Runtime.null_call symbol)).
Proof.
  split; [reflexivity|]. split; [reflexivity|].
  intros H.
  apply (H Tests.int_char_char Examples.without_emulator 4096%Z 8192%Z _
           eq_refl [] "FEXCore::MakeHostTrampolineForGuestFunction"%string).
  reflexivity.
Qed.

(** C8, amended.  The helpers of the header make no null check: for a
    function type [F = Result(Args...)],
    [MakeHostTrampolineForGuestFunctionAt<F>] and both overloads of
    [FinalizeHostTrampolineForGuestFunction<F>] call the weak emulator
    symbol at once, with [&CallbackUnpack<F>::CallGuestPtr] as host
    packer.  When the emulator provides the symbol this is the only call
    they make (and the first helper stores its result); when the symbol
    is null the call goes through the null address.  They return
    normally exactly when the symbol is not null. *)
Theorem trampoline_helpers_call_unconditionally
  (Result : CType) (Args : list CType) (env : Runtime.Environment)
  (GuestTarget GuestUnpacker trampoline : Z) (wrapper : Layout.Object) :
  let F := Function Result Args in
  let packer := Runtime.CallGuestPtr_of F in
  Callback.MakeHostTrampolineForGuestFunctionAt F env GuestTarget GuestUnpacker
  = WellFormed
      match Runtime.FEXCore_MakeHostTrampolineForGuestFunction env with
      | Some make =>
          Runtime.Returns
            [Runtime.called_MakeHostTrampoline packer GuestTarget GuestUnpacker]
            (make packer GuestTarget GuestUnpacker)
      | None =>
          Runtime.Crashes []
            (Runtime.null_call "FEXCore::MakeHostTrampolineForGuestFunction")
      end
  /\ Callback.FinalizeHostTrampolineForGuestFunction F env trampoline
     = WellFormed
         match Runtime.FEXCore_FinalizeHostTrampolineForGuestFunction env with
         | Some _ =>
             Runtime.Returns
               [Runtime.called_FinalizeHostTrampoline trampoline packer] tt
         | None =>
             Runtime.Crashes []
               (Runtime.null_call
                  "FEXCore::FinalizeHostTrampolineForGuestFunction")
         end
  /\ Callback.FinalizeHostTrampolineForGuestFunction_guest F env wrapper
     = Callback.FinalizeHostTrampolineForGuestFunction F env
         (Layout.data wrapper)
  /\ ((exists trace value,
         Callback.MakeHostTrampolineForGuestFunctionAt F env
           GuestTarget GuestUnpacker
         = WellFormed (Runtime.Returns trace value))
      <-> Runtime.FEXCore_MakeHostTrampolineForGuestFunction env <> None)
  /\ ((exists trace,
         Callback.FinalizeHostTrampolineForGuestFunction F env trampoline
         = WellFormed (Runtime.Returns trace tt))
      <-> Runtime.FEXCore_FinalizeHostTrampolineForGuestFunction env <> None).
Proof.
  intros F packer.
  unfold Callback.MakeHostTrampolineForGuestFunctionAt,
    Callback.FinalizeHostTrampolineForGuestFunction,
    Callback.FinalizeHostTrampolineForGuestFunction_guest,
    Callback.call_weak_Make, Callback.call_weak_Finalize.
  cbn [Callback.address_of_CallGuestPtr is_function_v F Cxx.bind].
  destruct (Runtime.FEXCore_MakeHostTrampolineForGuestFunction env) as [make|];
    destruct (Runtime.FEXCore_FinalizeHostTrampolineForGuestFunction env)
      as [finalize|];
    cbn [Runtime.seq Runtime.ret app];
    (split; [reflexivity|]); (split; [reflexivity|]);
    (split; [reflexivity|]); split; split;
    try (intros _; discriminate);
    try (intros _; eexists; try eexists; reflexivity);
    try (intros [trace [value Hrun]]; discriminate Hrun);
    try (intros [trace Hrun]; discriminate Hrun);
    try (intros Hnone; exfalso; apply Hnone; reflexivity).
Qed.

(** ** Equality of types and distinct signatures *)

Section TypeEquality.

Lemma IntType_eqb_eq (s t : IntType) : IntType_eqb s t = true -> s = t.
Proof.
  destruct s as [[] []], t as [[] []]; cbn; intros H;
    try reflexivity; discriminate H.
Qed.

Lemma IntType_eqb_refl (t : IntType) : IntType_eqb t t = true.
Proof. destruct t as [[] []]; reflexivity. Qed.

Lemma FloatKind_eqb_eq (j k : FloatKind) : FloatKind_eqb j k = true -> j = k.
Proof. destruct j, k; cbn; intros H; try reflexivity; discriminate H. Qed.

Lemma CType_eqb_eq : forall a b : CType, CType_eqb a b = true -> a = b.
Proof.
  fix IH 1. intros a b.
  destruct a, b; cbn; intros H; try discriminate H; try reflexivity.
  - f_equal. apply IntType_eqb_eq, H.
  - f_equal. apply FloatKind_eqb_eq, H.
  - apply andb_true_iff in H. destruct H as [Hn Hu].
    apply String.eqb_eq in Hn. apply IntType_eqb_eq in Hu. congruence.
  - apply String.eqb_eq in H. congruence.
  - apply String.eqb_eq in H. congruence.
  - f_equal. apply IH, H.
  - f_equal. apply IH, H.
  - apply andb_true_iff in H. destruct H as [Hr Hps].
    f_equal; [apply IH, Hr|].
    revert params0 Hps.
    induction params as [|x xs IHxs]; intros [|y ys] Hps;
      try discriminate Hps; try reflexivity.
    apply andb_true_iff in Hps. destruct Hps as [Hx Hxs].
    f_equal; [apply IH, Hx | apply IHxs, Hxs].
Qed.

Lemma CType_eqb_refl : forall a : CType, CType_eqb a a = true.
Proof.
  fix IH 1. intros a. destruct a; cbn; try reflexivity.
  - apply IntType_eqb_refl.
  - destruct k; reflexivity.
  - rewrite String.eqb_refl, IntType_eqb_refl. reflexivity.
  - apply String.eqb_refl.
  - apply String.eqb_refl.
  - apply IH.
  - apply IH.
  - rewrite IH. cbn.
    induction params as [|x xs IHxs]; [reflexivity|].
    rewrite IH, IHxs. reflexivity.
Qed.

Lemma mem_In (T : CType) (Ts : list CType) :
  Generator.mem T Ts = true <-> In T Ts.
Proof.
  induction Ts as [|U Ts IHTs]; cbn.
  - split; [discriminate | contradiction].
  - rewrite orb_true_iff, IHTs. split.
    + intros [H | H]; [left; symmetry; apply CType_eqb_eq, H | right; exact H].
    + intros [<- | H]; [left; apply CType_eqb_refl | right; exact H].
Qed.

Lemma distinct_from_spec (Ts seen : list CType) :
  NoDup (Generator.distinct_from seen Ts)
  /\ forall T, In T (Generator.distinct_from seen Ts)
               <-> In T Ts /\ ~ In T seen.
Proof.
  revert seen. induction Ts as [|U Ts IHTs]; intros seen; cbn.
  - split; [constructor|]. intros T. tauto.
  - destruct (Generator.mem U seen) eqn:Hm.
    + apply mem_In in Hm. destruct (IHTs seen) as [Hnd Hin].
      split; [exact Hnd|]. intros T. rewrite Hin. split.
      * intros [H1 H2]. split; [right; exact H1 | exact H2].
      * intros [[<- | H1] H2]; [contradiction | split; assumption].
    + assert (Hn : ~ In U seen).
      { intros HU. apply mem_In in HU. congruence. }
      destruct (IHTs (U :: seen)) as [Hnd Hin]. split.
      * constructor; [|exact Hnd]. rewrite Hin. cbn. tauto.
      * intros T. cbn. rewrite Hin. cbn. split.
        -- intros [<- | [H1 H2]]; [tauto|]. split; [tauto|]. tauto.
        -- intros [[<- | H1] H2]; [tauto|].
           destruct (Generator.mem U [T]) eqn:HUT.
           ++ apply mem_In in HUT. destruct HUT as [-> | []]. tauto.
           ++ right. split; [exact H1|]. intros [-> | H3]; [|tauto].
              cbn in HUT. rewrite CType_eqb_refl in HUT. discriminate HUT.
Qed.

Lemma distinct_NoDup (Ts : list CType) : NoDup (Generator.distinct Ts).
Proof. apply (distinct_from_spec Ts []). Qed.

Lemma distinct_In (Ts : list CType) (T : CType) :
  In T (Generator.distinct Ts) <-> In T Ts.
Proof.
  unfold Generator.distinct. rewrite (proj2 (distinct_from_spec Ts [])).
  cbn. tauto.
Qed.

End TypeEquality.

(** ** The packer of a variadic function *)

(** C5.  For [void func(int arg, ...)] with [uniform_va_type = char]
    the guest emitter produces the internal packer
    [fexfn_pack_func_internal], returning void, with the three parameters
    [int], [unsigned long] and [char*] in this order: the count of
    variadic arguments comes before the pointer to the array that holds
    them.  For any variadic function the two parameters follow the
    declared ones. *)
Theorem variadic_packer_signature :
  Generator.guest_packer (fst Tests.VariadicFunction)
    (snd Tests.VariadicFunction)
  = Generator.Emitted
      {| Generator.packer_name := "fexfn_pack_func_internal";
         Generator.packer_result := Void;
         Generator.packer_params :=
           [Integer int_t; Integer unsigned_long; Pointer (Integer char_t)] |}
  /\ (forall (name : string) (result : CType) (params : list CType)
             (cfg : Generator.FunctionConfig) (va : CType),
        Generator.callback_signature result = None ->
        Generator.uniform_va_type cfg = Some va ->
        exists packer,
          Generator.guest_packer
            {| Generator.fn_name := name; Generator.fn_result := result;
               Generator.fn_params := params;
               Generator.fn_variadic := true |} cfg
          = Generator.Emitted packer
          /\ Generator.packer_params packer
             = params ++ [Integer unsigned_long; Pointer va]
          /\ nth_error (Generator.packer_params packer) (List.length params)
             = Some (Integer unsigned_long)
          /\ nth_error (Generator.packer_params packer)
               (List.length params + 1)
             = Some (Pointer va)).
Proof.
  split; [reflexivity|].
  intros name result params cfg va Hres Hva.
  unfold Generator.guest_packer. cbn [Generator.fn_result Generator.fn_variadic
    Generator.fn_params Generator.fn_name].
  rewrite Hres, Hva. eexists. split; [reflexivity|].
  cbn [Generator.packer_params]. split; [reflexivity|]. split.
  - rewrite nth_error_app2 by lia. rewrite Nat.sub_diag. reflexivity.
  - rewrite nth_error_app2 by lia.
    replace (List.length params + 1 - List.length params) with 1 by lia.
    reflexivity.
Qed.

(** ** The void-pointer policy *)


(** Every assertion the test case "VoidPointerParameter" makes about
    void func(void* p);  holds of the policy.  For the unannotated
    parameter on X86_32 the test case asserts nothing. *)
Lemma void_pointer_policy_agrees_with_test
  (guest_abi : Generator.GuestABI) (input : Tests.VoidPointerInput)
  (check : Tests.Check) (annotation : Generator.ParameterConfig) :
  In (input, check) (Tests.VoidPointerParameter guest_abi) ->
  Tests.parameter_annotation input = Some annotation ->
  Tests.holds check
    (Tests.outcome (Generator.void_pointer_parameter guest_abi annotation))
  = true.
Proof.
  intros Hin Hann.
  destruct guest_abi; cbn in Hin;
    repeat (destruct Hin as [Hin | Hin];
            [injection Hin as <- <-; cbn in Hann;
             first [discriminate Hann
                   | injection Hann as <-; reflexivity] |]);
    contradiction.
Qed.

(** ** The generator model against the unit tests *)

(** The sizes of [exports] the tests "Trivial", "FunctionPointerViaType",
    "FunctionPointerParameter" and "MultipleParameters" expect, the
    packers they look for, and the generation errors they require. *)
Lemma generator_agrees_with_tests :
  map (fun inp => List.length (Generator.exports "libtest" inp))
      [Tests.Trivial; Tests.FunctionPointerViaType;
       Tests.FunctionPointerParameter; Tests.MultipleParameters]
  = [2; 2; 3; 2]
  /\ Generator.guest_packer (Examples.nullary "func") Generator.base_config
     = Generator.Emitted
         {| Generator.packer_name := "fexfn_pack_func";
            Generator.packer_result := Void;
            Generator.packer_params := [] |}
  /\ (exists diagnostic,
        Generator.guest_packer Tests.ReturnFunctionPointer
          Generator.base_config
        = Generator.Aborted diagnostic)
  /\ (exists packer,
        Generator.guest_packer Tests.ReturnFunctionPointer
          Tests.with_returns_guest_pointer
        = Generator.Emitted packer)
  /\ (exists diagnostic,
        Generator.guest_packer (fst Tests.VariadicFunction)
          Generator.base_config
        = Generator.Aborted diagnostic).
Proof.
  split; [reflexivity|]. split; [reflexivity|].
  split; [eexists; reflexivity|]. split; eexists; reflexivity.
Qed.

(** The wrappers the sections of the test "LayoutWrappers" expect: a
    [data] member of type [A] for a fully compatible type, a struct of
    [guest_layout] members for a repackable type and for an annotated
    incompatible one, a [host_layout<A>] whose [data] is an [A] and a
    defined [to_guest] in these three, and neither wrapper defined with
    [to_guest] deleted for an unannotated incompatible type. *)
Lemma layout_wrappers_agree_with_tests :
  Generator.layout_wrappers Generator.Identical false Tests.A Tests.A_members
  = Some {| Generator.guest_wrapper :=
              Layout.Defined {| Layout.guest_data := Layout.HostType |};
            Generator.host_wrapper :=
              Layout.Defined {| Layout.host_data := Tests.A |};
            Generator.to_guest_wrapper := Layout.Provided |}
  /\ Generator.layout_wrappers Generator.Repackable false Tests.A
       Tests.A_members
     = Some {| Generator.guest_wrapper :=
                 Layout.Defined
                   {| Layout.guest_data := Layout.Members Tests.A_members |};
               Generator.host_wrapper :=
                 Layout.Defined {| Layout.host_data := Tests.A |};
               Generator.to_guest_wrapper := Layout.Provided |}
  /\ Generator.layout_wrappers Generator.Incompatible true Tests.A
       Tests.A_members_annotated
     = Some {| Generator.guest_wrapper :=
                 Layout.Defined
                   {| Layout.guest_data :=
                        Layout.Members Tests.A_members_annotated |};
               Generator.host_wrapper :=
                 Layout.Defined {| Layout.host_data := Tests.A |};
               Generator.to_guest_wrapper := Layout.Provided |}
  /\ Generator.layout_wrappers Generator.Incompatible false Tests.A
       Tests.A_members
     = Some {| Generator.guest_wrapper := Layout.DeclaredOnly;
               Generator.host_wrapper := Layout.DeclaredOnly;
               Generator.to_guest_wrapper := Layout.Deleted |}.
Proof. repeat split. Qed.

(** * Further properties of the header and of the test harness *)

(** ** Round trips of scalars through the layout wrappers *)

Section ScalarRoundTrips.
Local Open Scope Z_scope.

Ltac split_comparisons :=
  repeat match goal with
         | |- context [?a <? ?b] => destruct (Z.ltb_spec a b)
         end.

(** Widening to a type that represents every value, then converting
    back, gives the value back. *)
Lemma convert_widen_narrow (u t : IntType) (h : Z) :
  represents_all u t = true -> in_range (int_bits u) h ->
  convert_int t (int_bits u) (convert_int u (int_bits t) h) = h.
Proof.
  intros Hr Hh.
  destruct u as [[] []], t as [[] []]; try discriminate Hr;
    unfold convert_int, value_of, wrap, in_range, int_bits in *;
    cbn in *; split_comparisons;
    Z.div_mod_to_equations; lia.
Qed.

Lemma represents_all_both (s t : IntType) :
  represents_all s t = true -> represents_all t s = true ->
  int_bits s = int_bits t.
Proof.
  destruct s as [[] []], t as [[] []]; cbn; intros H1 H2;
    try reflexivity; discriminate.
Qed.

Lemma host_object_ok_integer (t : IntType) (h : Layout.Object) :
  Conversion.host_object_ok (Integer t) h -> in_range (int_bits t) (Layout.data h).
Proof.
  unfold Conversion.host_object_ok. cbn [sizeof].
  rewrite int_bits_bytes. auto.
Qed.

Lemma host_object_ok_enum (name : string) (u : IntType) (h : Layout.Object) :
  Conversion.host_object_ok (Enum name u) h ->
  in_range (int_bits u) (Layout.data h).
Proof.
  unfold Conversion.host_object_ok. cbn [sizeof].
  rewrite int_bits_bytes. auto.
Qed.

End ScalarRoundTrips.

(** X1.  Host to guest and back: for a scalar type [T] that is not a
    pointer and a host value [h] of it, whenever [to_guest] of [h] and
    the construction of a [host_layout<T>] from the result both compile,
    the value that comes back is [h], whatever [guest_layout<T>] is
    declared to hold.  [to_guest] refuses a narrowing initialisation, so
    the guest member can hold every host value. *)
Theorem host_guest_host_round_trip
  (gl : Layout.GuestLayoutDef) (T : CType) (h g h' : Layout.Object) :
  is_scalar_non_pointer T = true ->
  Conversion.host_object_ok T h ->
  Layout.to_guest_value gl T h = WellFormed g ->
  Layout.host_layout_ctor_from gl T g = WellFormed h' ->
  Layout.data h' = Layout.data h.
Proof.
  intros Hs Hok.
  destruct gl as [[|t|ms]]; destruct T; try discriminate Hs;
    unfold Layout.to_guest_value, Layout.host_layout_ctor_from;
    cbn [Layout.underlying_type_t Layout.guest_data];
    try (intros Hg; discriminate Hg).
  - intros [= <-]. cbn. intros [= <-]. reflexivity.
  - intros [= <-]. cbn. rewrite Z.eqb_refl. cbn. intros [= <-]. reflexivity.
  - intros [= <-]. cbn. rewrite Z.eqb_refl. cbn. intros [= <-]. reflexivity.
  - intros [= <-]. cbn. intros Hh. discriminate Hh.
  - destruct (represents_all t0 t) eqn:Hr; [|intros Hg; discriminate Hg].
    intros [= <-]. cbn [Layout.data Layout.host_layout_primary is_class_v
      is_union_v is_void_v is_function_v negb static_assert Cxx.bind
      Layout.list_init].
    destruct (represents_all t t0); [|intros Hh; discriminate Hh].
    cbn [Cxx.bind Layout.complete sizeof Layout.sizeof_guest
           Layout.guest_data].
    destruct (int_bits t0 / 8 =? int_bits t / 8)%Z;
      [|intros Hh; discriminate Hh].
    cbn. intros [= <-]. cbn.
    apply convert_widen_narrow; [exact Hr|].
    apply host_object_ok_integer, Hok.
  - destruct (represents_all underlying t) eqn:Hr;
      [|intros Hg; discriminate Hg].
    intros [= <-]. cbn. intros [= <-]. cbn.
    apply convert_widen_narrow; [exact Hr|].
    eapply host_object_ok_enum, Hok.
Qed.

(** The value -1 of [enum C] (underlying type int) through a wrapper
    that holds an [int32_t]. *)
Lemma host_guest_host_round_trip_witness :
  Layout.to_guest_value Samples.guest_layout_C Samples.C
    {| Layout.data := 4294967295 |}
  = WellFormed {| Layout.data := 4294967295 |}
  /\ Layout.host_layout_ctor_from Samples.guest_layout_C Samples.C
       {| Layout.data := 4294967295 |}
     = WellFormed {| Layout.data := 4294967295 |}
  /\ Layout.data {| Layout.data := 4294967295 |} = 4294967295%Z.
Proof.
  split; [reflexivity|]. split; [reflexivity|].
  apply (host_guest_host_round_trip Samples.guest_layout_C Samples.C
           {| Layout.data := 4294967295 |} {| Layout.data := 4294967295 |}
           {| Layout.data := 4294967295 |} eq_refl).
  - unfold Conversion.host_object_ok, in_range. cbn. lia.
  - reflexivity.
  - reflexivity.
Defined.

(** X2.  Guest to host and back: for a scalar type [T] that is not a
    pointer and a guest value [g] of it, whenever the construction of a
    [host_layout<T>] from [g] and [to_guest] of the result both compile,
    the value that comes back is [g], provided [T] is not an enum or the
    two representations have the same size.  (For a non-enum type the
    constructor asserts the sizes equal; for an enum nothing does.) *)
Theorem guest_host_guest_round_trip
  (gl : Layout.GuestLayoutDef) (T : CType) (g h g' : Layout.Object) :
  is_scalar_non_pointer T = true ->
  Layout.guest_object_ok gl T g ->
  is_enum_v T = false \/ sizeof T = Layout.sizeof_guest gl T ->
  Layout.host_layout_ctor_from gl T g = WellFormed h ->
  Layout.to_guest_value gl T h = WellFormed g' ->
  Layout.data g' = Layout.data g.
Proof.
  intros Hs Hok Hsz.
  destruct gl as [[|t|ms]]; destruct T; try discriminate Hs;
    unfold Layout.to_guest_value, Layout.host_layout_ctor_from;
    cbn [Layout.underlying_type_t Layout.guest_data Layout.host_layout_primary
           is_class_v is_union_v is_void_v is_function_v negb static_assert
           Cxx.bind Layout.list_init Layout.static_cast_enum];
    try (intros Hh; discriminate Hh);
    try (intros _ Hg; discriminate Hg).
  - cbn. intros [= <-] [= <-]. reflexivity.
  - cbn. rewrite Z.eqb_refl. cbn. intros [= <-] [= <-]. reflexivity.
  - cbn. rewrite Z.eqb_refl. cbn. intros [= <-] [= <-]. reflexivity.
  - destruct (represents_all t t0) eqn:Hr; [|intros Hh; discriminate Hh].
    cbn [Cxx.bind Layout.complete sizeof Layout.sizeof_guest
           Layout.guest_data].
    destruct (int_bits t0 / 8 =? int_bits t / 8)%Z;
      [|intros Hh; discriminate Hh].
    cbn [static_assert Cxx.bind]. intros [= <-]. cbn [Layout.data].
    destruct (represents_all t0 t); [|intros Hg; discriminate Hg].
    intros [= <-]. cbn [Layout.data].
    apply convert_widen_narrow; [exact Hr|].
    eapply guest_object_ok_fixed, Hok.
  - intros [= <-]. cbn [Layout.data].
    destruct (represents_all underlying t); [|intros Hg; discriminate Hg].
    intros [= <-]. cbn [Layout.data].
    destruct Hsz as [He | Hsz]; [discriminate He|].
    assert (Hw : int_bits t = int_bits underlying).
    { apply int_bits_size. unfold Layout.sizeof_guest in Hsz.
      cbn [Layout.guest_data sizeof] in Hsz.
      injection Hsz as Hsz. symmetry. exact Hsz. }
    assert (Hg : in_range (int_bits t) (Layout.data g))
      by (eapply guest_object_ok_fixed, Hok).
    rewrite (convert_int_equal_width t (int_bits underlying) _ Hw)
      by (rewrite <- Hw; exact Hg).
    apply convert_int_equal_width; [symmetry; exact Hw | exact Hg].
Qed.

Lemma guest_host_guest_round_trip_witness :
  Layout.data {| Layout.data := 4294967295 |} = 4294967295%Z.
Proof.
  apply (guest_host_guest_round_trip Samples.guest_layout_C Samples.C
           {| Layout.data := 4294967295 |} {| Layout.data := 4294967295 |}
           {| Layout.data := 4294967295 |} eq_refl).
  - unfold Layout.guest_object_ok, in_range. cbn. lia.
  - right. reflexivity.
  - reflexivity.
  - reflexivity.
Defined.

(** Without equal sizes the round trip of an enum can lose bits:
    [enum E : unsigned char] with a wrapper that holds a [uint32_t]. *)
Lemma guest_host_guest_lossy :
  Cxx.bind
    (Layout.host_layout_ctor_from
       {| Layout.guest_data := Layout.FixedInt uint32_t |} Examples.E
       {| Layout.data := 511 |})
    (Layout.to_guest_value
       {| Layout.guest_data := Layout.FixedInt uint32_t |} Examples.E)
  = WellFormed {| Layout.data := 255 |}.
Proof. reflexivity. Qed.

(** ** Pointers from the host to the guest and back *)

(** X3.  Host to guest and back, for a pointer to a non-function type:
    [host_layout<T*> { to_guest(h) }] holds the low bits of the host
    address in [h], 32 of them with IS_32BIT_THUNK and 64 without.  The
    address survives exactly when it fits the guest pointer width;
    nothing in [to_guest] checks that it does. *)
Theorem host_pointer_round_trip
  (IS_32BIT_THUNK : bool) (T : CType) (h : Layout.Object) :
  let w := (if IS_32BIT_THUNK then 32 else 64)%Z in
  is_function_v T = false ->
  in_range (int_bits uintptr_t) (Layout.data h) ->
  Cxx.bind (Layout.to_guest_ptr IS_32BIT_THUNK T h)
           (Layout.host_layout_ptr_ctor IS_32BIT_THUNK T)
  = WellFormed {| Layout.data := (Layout.data h mod 2 ^ w)%Z |}
  /\ ((Layout.data h mod 2 ^ w)%Z = Layout.data h
      <-> in_range w (Layout.data h)).
Proof.
  intros w Hf Hh. split.
  - unfold Layout.to_guest_ptr, Layout.host_layout_ptr_ctor,
      Layout.host_layout_ptr.
    rewrite Hf. cbn [negb static_assert Cxx.bind].
    rewrite (load_address IS_32BIT_THUNK _
               (stored_address_ok IS_32BIT_THUNK (Layout.data h))).
    cbn [Layout.data]. rewrite store_address. reflexivity.
  - unfold in_range. subst w. split.
    + intros <-. apply Z.mod_pos_bound. destruct IS_32BIT_THUNK; lia.
    + intros H. apply Z.mod_small. exact H.
Qed.

(** The host address 2^32 + 16 of an [int] in a 32-bit thunk library
    comes back as 16. *)
Lemma host_pointer_round_trip_witness :
  Cxx.bind
    (Layout.to_guest_ptr true Tests.int_type {| Layout.data := 4294967312 |})
    (Layout.host_layout_ptr_ctor true Tests.int_type)
  = WellFormed {| Layout.data := 16 |}.
Proof.
  refine (proj1 (host_pointer_round_trip true Tests.int_type
                   {| Layout.data := 4294967312 |} eq_refl _)).
  unfold in_range. cbn. lia.
Defined.

(** ** Projection of the arguments of a host function *)

Section Projections.

Variable IS_32BIT_THUNK : bool.
Variable gen : Layout.Generated.
Variable generated_ctor :
  string -> Layout.Object -> Instantiation Layout.Object.

Let Projection := Conversion.Projection IS_32BIT_THUNK gen generated_ctor.
Let Projections := Conversion.Projections IS_32BIT_THUNK gen generated_ctor.

Lemma Projection_kind (ann : Runtime.ParameterAnnotations) (T : CType)
  (x : Layout.Object) (p : Conversion.Projected) :
  Projection ann T x = WellFormed p ->
  if Runtime.is_passthrough ann then p = Conversion.as_guest_layout x
  else exists v, p = Conversion.as_host v.
Proof.
  unfold Projection, Conversion.Projection.
  destruct (Runtime.is_passthrough ann).
  - destruct (Layout.guest_layout IS_32BIT_THUNK gen T); cbn;
      [intros [= <-]; reflexivity | intros H; discriminate H].
  - destruct (Conversion.host_layout_construct _ _ _ T x); cbn;
      [intros [= <-]; eexists; reflexivity | intros H; discriminate H].
Qed.

Lemma Projections_cons ann T x rest ps :
  Projections ((ann, (T, x)) :: rest) = WellFormed ps ->
  exists p ps',
    ps = p :: ps' /\ Projection ann T x = WellFormed p
    /\ Projections rest = WellFormed ps'.
Proof.
  unfold Projections, Projection. cbn [Conversion.Projections].
  destruct (Conversion.Projection _ _ _ ann T x) as [p|]; cbn [Cxx.bind];
    [|intros H; discriminate H].
  destruct (Conversion.Projections _ _ _ rest) as [ps'|]; cbn [Cxx.bind];
    [|intros H; discriminate H].
  intros [= <-]. exists p, ps'. repeat split.
Qed.

Lemma Projections_fit (Annotations : list Runtime.ParameterAnnotations) :
  forall (Args : list CType) (args : list Layout.Object)
         (ps : list Conversion.Projected),
  List.length Annotations = List.length Args ->
  List.length args = List.length Args ->
  Projections (combine Annotations (combine Args args)) = WellFormed ps ->
  Forall2 Conversion.fits ps (map Conversion.callback_param (combine Annotations Args))
  /\ List.length ps = List.length Args
  /\ forall i ann x,
       nth_error Annotations i = Some ann ->
       Runtime.is_passthrough ann = true ->
       nth_error args i = Some x ->
       nth_error ps i = Some (Conversion.as_guest_layout x).
Proof.
  induction Annotations as [|ann Annotations IH];
    intros [|T Args] [|x args] ps Hlen Hargs; try discriminate.
  - intros [= <-]. repeat split; [constructor|].
    intros [|i] ? ? H; discriminate H.
  - intros H. apply Projections_cons in H as (p & ps' & -> & Hp & Hps).
    injection Hlen as Hlen. injection Hargs as Hargs.
    destruct (IH Args args ps' Hlen Hargs Hps) as (Hfit & Hl & Hpass).
    pose proof (Projection_kind _ _ _ _ Hp) as Hk.
    repeat split.
    + cbn [combine map]. constructor; [|exact Hfit].
      unfold Conversion.callback_param. cbn [fst snd].
      destruct (Runtime.is_passthrough ann).
      * subst p. exact I.
      * destruct Hk as [v ->]. exact I.
    + cbn. rewrite Hl. reflexivity.
    + intros [|i] ann' x'; cbn [nth_error].
      * intros [= <-] Hpt [= <-]. rewrite Hpt in Hk. subst p. reflexivity.
      * apply Hpass.
Qed.

Lemma Call_inversion (Annotations : list Runtime.ParameterAnnotations)
  (Result : CType) (Args : list CType) (inst : Callback.CallInstance) :
  Callback.Call_prologue Annotations Result Args = WellFormed inst ->
  List.length Annotations = List.length Args
  /\ Callback.callback_params inst
     = map Conversion.callback_param (combine Annotations Args)
       ++ [Callback.plain (Integer uintptr_t)]
  /\ Callback.record_slots inst
     = map Callback.guest_layout_of Args
       ++ [Callback.plain (Integer uintptr_t)].
Proof.
  unfold Callback.Call_prologue.
  destruct (List.length Annotations =? List.length Args) eqn:Hlen;
    cbn [static_assert Cxx.bind]; [|intros H; discriminate H].
  destruct ((List.length Args <=? 18) || (List.length Args =? 23));
    cbn [static_assert Cxx.bind]; [|intros H; discriminate H].
  match goal with
  | |- Cxx.bind ?slot _ = _ -> _ => destruct slot as [slot'|]
  end; cbn [Cxx.bind]; [|intros H; discriminate H].
  intros [= <-]. split; [apply Nat.eqb_eq, Hlen | split; reflexivity].
Qed.

End Projections.

(** X4.  [Projection] of a guest pointer.  With a passthrough annotation
    the [guest_layout] object is handed on as it is, also for a pointer
    to a function.  Without one, a pointer to a function does not
    compile ([host_layout] asserts "Function types must be handled
    separately"), and any other pointer is handed on as the host pointer
    with the same address, zero-extended from the guest pointer width.
    The same holds for [T* const]. *)
Theorem Projection_pointer
  (IS_32BIT_THUNK : bool) (gen : Layout.Generated)
  (generated_ctor : string -> Layout.Object -> Instantiation Layout.Object)
  (Annotation : Runtime.ParameterAnnotations) (U : CType)
  (g : Layout.Object) :
  Layout.guest_pointer_ok IS_32BIT_THUNK g ->
  let expected :=
    if Runtime.is_passthrough Annotation
    then WellFormed (Conversion.as_guest_layout g)
    else if is_function_v U
    then IllFormed
           (static_assert_failed "Function types must be handled separately")
    else WellFormed (Conversion.as_host (Layout.data g)) in
  Conversion.Projection IS_32BIT_THUNK gen generated_ctor Annotation
    (Pointer U) g = expected
  /\ Conversion.Projection IS_32BIT_THUNK gen generated_ctor Annotation
       (ConstPointer U) g = expected.
Proof.
  intros Hg expected. subst expected.
  unfold Conversion.Projection, Conversion.host_layout_construct,
    Layout.host_layout_ptr_ctor, Layout.host_layout_const_ptr_ctor,
    Layout.host_layout_ptr, Layout.host_layout_const_ptr.
  cbn [Layout.guest_layout].
  destruct (Runtime.is_passthrough Annotation); [split; reflexivity|].
  destruct (is_function_v U); cbn [negb static_assert Cxx.bind];
    [split; reflexivity|].
  rewrite (load_address IS_32BIT_THUNK g Hg). split; reflexivity.
Qed.

(** A 32-bit guest pointer to [int(char, char)], passed through, and a
    32-bit guest pointer to [int], converted. *)
Lemma Projection_pointer_witness :
  Conversion.Projection true Layout.header_only
    (fun _ _ => IllFormed incomplete_type) Samples.passthrough
    (Pointer Tests.int_char_char) {| Layout.data := 4096 |}
  = WellFormed (Conversion.as_guest_layout {| Layout.data := 4096 |})
  /\ Conversion.Projection true Layout.header_only
       (fun _ _ => IllFormed incomplete_type) Samples.plain_annotation
       (Pointer Tests.int_type) {| Layout.data := 4096 |}
     = WellFormed (Conversion.as_host 4096).
Proof.
  split.
  - refine (proj1 (Projection_pointer true Layout.header_only _
                     Samples.passthrough Tests.int_char_char
                     {| Layout.data := 4096 |} _)).
    unfold Layout.guest_pointer_ok, in_range. cbn. lia.
  - refine (proj1 (Projection_pointer true Layout.header_only _
                     Samples.plain_annotation Tests.int_type
                     {| Layout.data := 4096 |} _)).
    unfold Layout.guest_pointer_ok, in_range. cbn. lia.
Defined.

(** X11.  [Projection] of a value that is not a pointer, in a
    translation unit without generated specialisations.  A bool, an
    integer or a floating-point value is handed on with the bits it has
    in the packed record: as the [guest_layout] object with a
    passthrough annotation, as the host value without one.  For an enum,
    a class, a union, void or a function type [Projection] does not
    compile with either annotation: such a type needs generated
    wrappers. *)
Theorem Projection_header_only
  (IS_32BIT_THUNK : bool)
  (generated_ctor : string -> Layout.Object -> Instantiation Layout.Object)
  (Annotation : Runtime.ParameterAnnotations) (T : CType)
  (g : Layout.Object) :
  match T with
  | Boolean | Integer _ | Floating _ =>
      Conversion.Projection IS_32BIT_THUNK Layout.header_only generated_ctor
        Annotation T g
      = WellFormed (if Runtime.is_passthrough Annotation
                    then Conversion.as_guest_layout g
                    else Conversion.as_host (Layout.data g))
  | Pointer _ | ConstPointer _ => True
  | _ =>
      compiles
        (Conversion.Projection IS_32BIT_THUNK Layout.header_only
           generated_ctor Annotation T g) = false
  end.
Proof.
  unfold Conversion.Projection, Conversion.host_layout_construct.
  destruct T; try exact I;
    destruct (Runtime.is_passthrough Annotation); try reflexivity.
  - cbn. rewrite Z.eqb_refl. reflexivity.
  - cbn. rewrite Z.eqb_refl. reflexivity.
Qed.

(** X5.  [to_host_layout] in a translation unit without generated
    specialisations.  For a bool, integer, floating-point or enum type
    and for a pointer to a non-function type it compiles, and the
    wrapper it returns is the object it was given.  It does not compile
    for a class, a union, void or a function type (the primary
    [host_layout] rejects them), for a pointer to a function type, or
    for [T* const], whose wrapper has a member of type [T*], so that the
    [is_same] assertion fails. *)
Theorem to_host_layout_header_only (T : CType) (t : Z) :
  match T with
  | Boolean | Integer _ | Floating _ | Enum _ _ =>
      Conversion.to_host_layout Layout.header_only T t
      = WellFormed {| Layout.data := t |}
  | Pointer U =>
      if is_function_v U
      then compiles (Conversion.to_host_layout Layout.header_only T t) = false
      else Conversion.to_host_layout Layout.header_only T t
           = WellFormed {| Layout.data := t |}
  | ConstPointer _ | Void | Class _ | Union _ | Function _ _ =>
      compiles (Conversion.to_host_layout Layout.header_only T t) = false
  end.
Proof.
  unfold Conversion.to_host_layout.
  destruct T;
    unfold Layout.host_layout, Layout.host_layout_primary,
      Layout.host_layout_ptr, Layout.host_layout_const_ptr;
    cbn [Layout.tag_name option_map Layout.host_layout_spec
         Layout.header_only is_class_v is_union_v is_void_v is_function_v
         negb static_assert Cxx.bind Layout.host_data];
    try (destruct (is_function_v T) eqn:Hf;
         cbn [negb static_assert Cxx.bind Layout.host_data]);
    try rewrite CType_eqb_refl; reflexivity.
Qed.

(** X6.  The arguments [Call] hands to the callback fit the function
    type it casts the callback to.  When [Call] and its lambda compile,
    the lambda calls [callback] with one argument per slot of the packed
    record; argument [i] is a [guest_layout] object where parameter [i]
    of the callback type is [guest_layout<Args_i>] and a plain host
    value where it is [Args_i]; an argument annotated as passthrough is
    the object read from the record, unchanged; and the last argument is
    [target], for the trailing [uintptr_t] parameter. *)
Theorem Call_arguments_fit_callback
  (IS_32BIT_THUNK : bool) (gen : Layout.Generated)
  (generated_ctor : string -> Layout.Object -> Instantiation Layout.Object)
  (Annotations : list Runtime.ParameterAnnotations) (Result : CType)
  (Args : list CType) (args : list Layout.Object) (target : Z)
  (inst : Callback.CallInstance) (ps : list Conversion.Projected) :
  List.length args = List.length Args ->
  Callback.Call_prologue Annotations Result Args = WellFormed inst ->
  Conversion.Call_f IS_32BIT_THUNK gen generated_ctor Annotations Result
    Args args target = WellFormed ps ->
  Forall2 Conversion.fits ps (Callback.callback_params inst)
  /\ List.length ps = List.length (Callback.record_slots inst)
  /\ (forall i ann x,
        nth_error Annotations i = Some ann ->
        Runtime.is_passthrough ann = true ->
        nth_error args i = Some x ->
        nth_error ps i = Some (Conversion.as_guest_layout x))
  /\ nth_error ps (List.length Args) = Some (Conversion.as_host target).
Proof.
  intros Hargs Hcall. unfold Conversion.Call_f. rewrite Hcall.
  cbn [Cxx.bind].
  destruct (Conversion.Projections IS_32BIT_THUNK gen generated_ctor
              (combine Annotations (combine Args args))) as [ps0|] eqn:Hps;
    cbn [Cxx.bind]; [|intros H; discriminate H].
  intros [= <-].
  destruct (Call_inversion _ _ _ _ Hcall) as (Hlen & Hparams & Hslots).
  destruct (Projections_fit IS_32BIT_THUNK gen generated_ctor Annotations
              Args args ps0 Hlen Hargs Hps) as (Hfit & Hl & Hpass).
  split; [|split; [|split]].
  - rewrite Hparams. apply Forall2_app; [exact Hfit|].
    constructor; [exact I | constructor].
  - rewrite Hslots, !length_app, length_map, Hl. reflexivity.
  - intros i ann x Hann Hpt Hx.
    rewrite nth_error_app1; [exact (Hpass i ann x Hann Hpt Hx)|].
    rewrite Hl, <- Hargs. apply nth_error_Some. rewrite Hx. discriminate.
  - rewrite nth_error_app2 by lia. rewrite Hl, Nat.sub_diag. reflexivity.
Qed.

(** A host function [void(int (*)(char, char), int*)] in a 32-bit thunk
    library: the function pointer is passed through, the pointer to
    [int] is converted. *)
Lemma Call_arguments_fit_callback_witness :
  Conversion.Call_f true Layout.header_only
    (fun _ _ => IllFormed incomplete_type)
    [Samples.passthrough; Samples.plain_annotation] Void
    [Pointer Tests.int_char_char; Pointer Tests.int_type]
    [{| Layout.data := 4096 |}; {| Layout.data := 8192 |}] 23
  = WellFormed
      [Conversion.as_guest_layout {| Layout.data := 4096 |};
       Conversion.as_host 8192; Conversion.as_host 23]
  /\ nth_error
       [Conversion.as_guest_layout {| Layout.data := 4096 |};
        Conversion.as_host 8192; Conversion.as_host 23] 2
     = Some (Conversion.as_host 23).
Proof.
  split; [reflexivity|].
  refine (proj2 (proj2 (proj2
    (Call_arguments_fit_callback true Layout.header_only
       (fun _ _ => IllFormed incomplete_type)
       [Samples.passthrough; Samples.plain_annotation] Void
       [Pointer Tests.int_char_char; Pointer Tests.int_type]
       [{| Layout.data := 4096 |}; {| Layout.data := 8192 |}] 23
       _ _ eq_refl eq_refl eq_refl)))).
Defined.

(** ** The AST match callback of the tests *)

Section MatchCallbacks.

Variables MatchResult Node NodeType : Type.
Variable getNodeAs : NodeType -> MatchResult -> string -> option Node.

Lemma fold_left_andb {A} (f : A -> bool) (l : list A) (b : bool) :
  fold_left (fun s x => s && f x) l b = b && forallb f l.
Proof.
  revert b. induction l as [|x l IH]; intros b; cbn.
  - rewrite Bool.andb_true_r. reflexivity.
  - rewrite IH, Bool.andb_assoc. reflexivity.
Qed.

Lemma run_binding_checks (found : list MatchResult)
  (cb : Harness.MatchCallback MatchResult) :
  Harness.binding_checks (fold_left Harness.run found cb)
  = Harness.binding_checks cb.
Proof.
  revert cb. induction found as [|m found IH]; intros cb; cbn;
    [reflexivity|].
  rewrite IH. reflexivity.
Qed.

(** X7.  [HasASTMatching::match] reports the last match only: [run]
    sets [success] anew for every match, so the result is whether every
    binding check accepts the last match the finder reported, and, with
    no match at all, the initial [success].  For a fresh callback this
    is [false] without a match and [true] with one; with one check added
    by [check_binding] it is the check on the node bound in the last
    match, and [false] when that match lacks the binding. *)
Theorem HasASTMatching_match_last
  (cb : Harness.MatchCallback MatchResult) (found : list MatchResult)
  (m : MatchResult) (K : NodeType) (binding_name : string)
  (check_fn : Node -> bool) :
  Harness.HasASTMatching_match cb (found ++ [m])
  = forallb (fun check => check m) (Harness.binding_checks cb)
  /\ Harness.HasASTMatching_match cb [] = Harness.success cb
  /\ Harness.HasASTMatching_match Harness.new_MatchCallback
       (@nil MatchResult) = false
  /\ Harness.HasASTMatching_match Harness.new_MatchCallback (found ++ [m])
     = true
  /\ Harness.HasASTMatching_match
       (Harness.check_binding getNodeAs K binding_name check_fn
          Harness.new_MatchCallback) (found ++ [m])
     = match getNodeAs K m binding_name with
       | Some node => check_fn node
       | None => false
       end.
Proof.
  assert (Hlast : forall cb' : Harness.MatchCallback MatchResult,
            Harness.HasASTMatching_match cb' (found ++ [m])
            = forallb (fun check => check m) (Harness.binding_checks cb')).
  { intros cb'. unfold Harness.HasASTMatching_match, Harness.matched.
    rewrite fold_left_app. cbn [fold_left Harness.run Harness.success].
    rewrite run_binding_checks.
    apply (fold_left_andb (fun check : Harness.CheckFn MatchResult => check m)). }
  split; [apply Hlast|].
  split; [reflexivity|].
  split; [reflexivity|].
  split.
  - rewrite Hlast. reflexivity.
  - rewrite Hlast. cbn. rewrite Bool.andb_true_r. reflexivity.
Qed.

End MatchCallbacks.

(** ** Reading the generated file and blanking "static" *)

Section GeneratedText.
Import Harness.

Lemma read_file_fits (result file : text) (n : nat) :
  List.length file <= n ->
  read_file result file n
  = Some (result ++ file ++ repeat NUL (n - List.length file)).
Proof.
  intros Hn. unfold read_file.
  rewrite length_app, repeat_length.
  rewrite (Nat.min_r _ (List.length file)) by lia.
  destruct (Nat.ltb_spec n (List.length file)) as [H|_]; [lia|].
  f_equal.
  rewrite firstn_app, Nat.sub_diag, firstn_all, firstn_O, app_nil_r.
  rewrite firstn_all.
  rewrite skipn_app, skipn_all2 by lia. cbn [app].
  replace (List.length result + List.length file - List.length result)
    with (List.length file) by lia.
  replace (repeat NUL n)
    with (repeat NUL (List.length file) ++ repeat NUL (n - List.length file))
    by (rewrite <- repeat_app; f_equal; lia).
  rewrite skipn_app, repeat_length, Nat.sub_diag, skipn_O.
  rewrite skipn_all2 by (rewrite repeat_length; lia).
  reflexivity.
Qed.

(** X8.  Reading the generated file after [resize]: [read] is given the
    size of the whole string as its count, not the number of characters
    added.  When the file has at most the reported number of characters
    they follow the text already there, and the rest of the added
    characters stay NUL; in particular the result is the text followed
    by the file when the size is the reported one.  When the file has
    grown beyond the reported size and the string was not empty, [read]
    stores past the end of the string. *)
Theorem read_file_bounds (result file : text) (new_data_size : nat) :
  read_file result file (List.length file) = Some (result ++ file)
  /\ (List.length file <= new_data_size ->
      read_file result file new_data_size
      = Some (result ++ file
              ++ repeat NUL (new_data_size - List.length file)))
  /\ (result <> [] ->
      (read_file result file new_data_size = None
       <-> new_data_size < List.length file)).
Proof.
  split; [|split].
  - rewrite read_file_fits by lia.
    rewrite Nat.sub_diag. cbn [repeat]. rewrite app_nil_r. reflexivity.
  - apply read_file_fits.
  - intros Hne. split.
    + intros Hnone.
      destruct (Nat.le_gt_cases (List.length file) new_data_size)
        as [Hle|Hgt]; [|exact Hgt].
      rewrite read_file_fits in Hnone by exact Hle. discriminate Hnone.
    + intros Hlt. unfold read_file.
      rewrite length_app, repeat_length.
      destruct result as [|c result]; [contradiction|]. cbn [List.length].
      destruct (Nat.ltb_spec new_data_size
                  (Nat.min (S (List.length result) + new_data_size)
                     (List.length file))) as [_|Hge]; [reflexivity|lia].
Qed.

(** Characters other than the space: what the loop uses up. *)
Let ink (s : text) : nat :=
  List.length (filter (fun c => negb (Ascii.eqb c space)) s).

Lemma ink_app (s t : text) : ink (s ++ t) = ink s + ink t.
Proof. unfold ink. rewrite filter_app, length_app. reflexivity. Qed.

Lemma ink_length (s : text) : ink s <= List.length s.
Proof. apply filter_length_le. Qed.

Lemma starts_with_app (needle s : text) :
  starts_with needle s = true -> exists rest, s = needle ++ rest.
Proof.
  revert s. induction needle as [|c needle IH]; intros s; cbn.
  - intros _. exists s. reflexivity.
  - destruct s as [|d s]; [intros H; discriminate H|].
    intros H. apply Bool.andb_true_iff in H as [Hc Hs].
    apply Ascii.eqb_eq in Hc. subst d.
    destruct (IH s Hs) as [rest ->]. exists rest. reflexivity.
Qed.

Lemma find0_Some (needle s : text) (k : nat) :
  find0 needle s = Some k ->
  exists before rest, s = before ++ needle ++ rest /\ List.length before = k.
Proof.
  revert k. induction s as [|c s IH]; intros k; cbn [find0].
  - destruct (starts_with needle []) eqn:Hs; [|intros H; discriminate H].
    intros [= <-]. destruct (starts_with_app _ _ Hs) as [rest Hrest].
    exists [], rest. split; [exact Hrest | reflexivity].
  - destruct (starts_with needle (c :: s)) eqn:Hs.
    + intros [= <-]. destruct (starts_with_app _ _ Hs) as [rest Hrest].
      exists [], rest. split; [exact Hrest | reflexivity].
    + destruct (find0 needle s) as [k'|] eqn:Hf; [|intros H; discriminate H].
      cbn. intros [= <-].
      destruct (IH k' eq_refl) as (before & rest & -> & Hlen).
      exists (c :: before), rest. split; [reflexivity|].
      cbn. rewrite Hlen. reflexivity.
Qed.

Lemma find_Some (needle s : text) (p pos : nat) :
  find needle s p = Some pos ->
  exists before rest,
    s = before ++ needle ++ rest /\ List.length before = pos /\ p <= pos.
Proof.
  unfold find. destruct (Nat.ltb_spec (List.length s) p) as [_|Hp];
    [intros H; discriminate H|].
  destruct (find0 needle (skipn p s)) as [k|] eqn:Hf;
    [|intros H; discriminate H].
  cbn. intros [= <-].
  destruct (find0_Some _ _ _ Hf) as (before & rest & Hs & Hlen).
  exists (firstn p s ++ before), rest. split; [|split].
  - rewrite <- app_assoc, <- Hs. symmetry. apply firstn_skipn.
  - rewrite length_app, firstn_length_le by exact Hp. lia.
  - lia.
Qed.

Lemma replace_static (before rest : text) :
  replace (before ++ static_ ++ rest) (List.length before) 6 six_spaces
  = Some (before ++ six_spaces ++ space :: rest).
Proof.
  unfold replace. rewrite length_app.
  destruct (Nat.ltb_spec (List.length before + List.length (static_ ++ rest))
              (List.length before)) as [H|_]; [lia|].
  f_equal.
  rewrite firstn_app, Nat.sub_diag, firstn_all, firstn_O, app_nil_r.
  f_equal. f_equal.
  rewrite skipn_app, skipn_all2 by lia. cbn [app].
  replace (List.length before + 6 - List.length before) with 6 by lia.
  reflexivity.
Qed.

Lemma kept_or_blanked_refl (s : text) : Forall2 kept_or_blanked s s.
Proof. induction s; constructor; [left; reflexivity | assumption]. Qed.

Lemma kept_or_blanked_trans (s t u : text) :
  Forall2 kept_or_blanked s t -> Forall2 kept_or_blanked t u ->
  Forall2 kept_or_blanked s u.
Proof.
  intros Hst. revert u. induction Hst as [|c d s t Hcd Hst IH]; intros u Htu.
  - inversion Htu. constructor.
  - inversion Htu as [|d' e t' u' Hde Htu' E1 E2]; subst.
    constructor; [|apply IH, Htu'].
    destruct Hde as [-> | ->]; [exact Hcd | right; reflexivity].
Qed.

(** One turn of the loop on a text with "static " at [before]. *)
Lemma blank_one (before rest : text) (p : nat) :
  p <= List.length before ->
  let s := before ++ static_ ++ rest in
  let s' := before ++ six_spaces ++ space :: rest in
  List.length s' = List.length s
  /\ firstn p s' = firstn p s
  /\ Forall2 kept_or_blanked s s'
  /\ ink s' < ink s.
Proof.
  intros Hp s s'. subst s s'. split; [|split; [|split]].
  - rewrite !length_app. reflexivity.
  - rewrite !firstn_app.
    replace (p - List.length before) with 0 by lia.
    rewrite !firstn_O. reflexivity.
  - apply Forall2_app; [apply kept_or_blanked_refl|].
    cbn. do 6 (constructor; [right; reflexivity|]).
    constructor; [left; reflexivity|]. apply kept_or_blanked_refl.
  - rewrite !ink_app.
    replace (space :: rest) with ([space] ++ rest) by reflexivity.
    rewrite ink_app. cbn. lia.
Qed.

(** The loop ends before its fuel does, and what it leaves. *)
Lemma force_non_static_loop_spec (prelude_size : nat) :
  forall (fuel : nat) (result : text),
  ink result < fuel ->
  exists r,
    force_non_static_loop fuel result prelude_size = finished r
    /\ List.length r = List.length result
    /\ firstn prelude_size r = firstn prelude_size result
    /\ Forall2 kept_or_blanked result r
    /\ find static_ r prelude_size = None.
Proof.
  induction fuel as [|fuel IH]; intros result Hfuel; [lia|].
  cbn [force_non_static_loop].
  destruct (find static_ result prelude_size) as [pos|] eqn:Hfind.
  - destruct (find_Some _ _ _ _ Hfind) as (before & rest & -> & <- & Hp).
    rewrite replace_static.
    destruct (blank_one before rest prelude_size Hp)
      as (Hlen & Hfirst & Hkept & Hink).
    destruct (IH (before ++ six_spaces ++ space :: rest)) as
      (r & Hr & Hrlen & Hrfirst & Hrkept & Hrfind); [lia|].
    exists r. split; [exact Hr|]. split; [congruence|].
    split; [congruence|]. split; [|exact Hrfind].
    eapply kept_or_blanked_trans; [exact Hkept | exact Hrkept].
  - exists result. split; [reflexivity|]. split; [reflexivity|].
    split; [reflexivity|]. split; [apply kept_or_blanked_refl | exact Hfind].
Qed.

(** X9.  The loop that forces functions to be non-static, run on any
    text from any position: it ends (the fuel of the model is never used
    up), [replace] never throws, and it leaves a text of the same length
    in which nothing before [prelude_size] has changed, every character
    is the original one or a space, and "static " no longer occurs at or
    after [prelude_size].  Since a replacement can complete a new
    occurrence before it ("staticstatic "), the search restarts at
    [prelude_size] every time. *)
Theorem force_non_static_blanks (result : text) (prelude_size : nat) :
  exists r,
    force_non_static result prelude_size = finished r
    /\ List.length r = List.length result
    /\ firstn prelude_size r = firstn prelude_size result
    /\ Forall2 kept_or_blanked result r
    /\ find static_ r prelude_size = None.
Proof.
  apply force_non_static_loop_spec.
  pose proof (ink_length result). lia.
Qed.

(** Both words go, the second one first. *)
Lemma force_non_static_staticstatic :
  force_non_static Samples.staticstatic 0
  = finished (list_ascii_of_string "             int x;").
Proof. reflexivity. Qed.

(** X10.  [Fixture::run_thunkgen_host], from the text of the fixed
    declarations and the generated file to the source that is compiled,
    when the file has the reported size: the source is the prelude, the
    fixed declarations unchanged (also where they say "static "), and a
    body as long as the file in which every character is the file's or a
    space and which, after the declarations, contains no "static ". *)
Theorem run_thunkgen_host_text_blanks (prelude result file : text) :
  exists body,
    run_thunkgen_host_text prelude result file (List.length file)
    = Some (prelude ++ result ++ body)
    /\ List.length body = List.length file
    /\ Forall2 kept_or_blanked file body
    /\ find static_ (result ++ body) (List.length result) = None.
Proof.
  unfold run_thunkgen_host_text.
  rewrite read_file_fits by lia.
  rewrite Nat.sub_diag. cbn [repeat]. rewrite app_nil_r.
  destruct (force_non_static_loop_spec (List.length result)
              (S (List.length (result ++ file))) (result ++ file))
    as (r & Hr & Hlen & Hfirst & Hkept & Hfind).
  { pose proof (ink_length (result ++ file)). lia. }
  unfold force_non_static. rewrite Hr.
  apply Forall2_app_inv_l in Hkept as (r1 & body & H1 & H2 & ->).
  assert (Hr1 : r1 = result).
  { pose proof (Forall2_length H1) as Hl.
    rewrite !firstn_app, <- Hl, Nat.sub_diag, !firstn_O, !app_nil_r in Hfirst.
    rewrite Hl, firstn_all in Hfirst. rewrite <- Hl, firstn_all in Hfirst.
    exact Hfirst. }
  subst r1. exists body. split; [reflexivity|].
  split; [symmetry; apply (Forall2_length H2)|].
  split; [exact H2 | exact Hfind].
Qed.

End GeneratedText.
